(** * The sponsorship endpoint of Octane (packages/server/pages/api/sponsor.ts)

    A shallow embedding of the request handler: the decoded transaction is a
    record, the calls into the ledger client and the codec library are
    functions supplied by the caller (they may throw), the duplicate cache
    is a finite map from lock keys to expiry instants, and every external
    call that the handler makes after taking the lock is logged in a trace. *)

From Stdlib Require Import ZArith Lia Ascii String Sorted.
From stdpp Require Import gmap strings list fin_maps.

Local Open Scope Z_scope.

(** ** JavaScript values and exceptions *)

Abbreviation Bytes := (list Z) (only parsing).
Abbreviation PublicKey := (list Z) (only parsing).

(** [request.body?.transaction] is only ever tested with [typeof]. *)
Inductive JsValue :=
| JsUndefined
| JsNull
| JsNumber (n : Z)
| JsString (s : string)
| JsObject.

(** A thrown value: an [Error] with its message, or anything else. *)
Inductive Thrown :=
| JsError (message : string)
| JsOther.

Inductive result (A : Type) :=
| Ok (a : A)
| Throw (e : Thrown).
Arguments Ok {A} a.
Arguments Throw {A} e.

(** [sig.every(byte => byte === 0)] *)
Definition every_zero (sig : Bytes) : bool := forallb (Z.eqb 0) sig.

(** [PublicKey.equals] compares the key bytes. *)
Definition equals (a b : PublicKey) : bool := bool_decide (a = b).

(** ** Decoded transactions *)

Inductive TransactionVersion := Legacy | V0.

Module VersionedMessage.
Record t := {
  version : TransactionVersion;
  numRequiredSignatures : Z;          (* header.numRequiredSignatures *)
  staticAccountKeys : list PublicKey;
  recentBlockhash : string;
  instructions : Bytes                (* opaque to the handler *)
}.
End VersionedMessage.

Module VersionedTransaction.
Record t := {
  message : VersionedMessage.t;
  signatures : list Bytes
}.
Definition version (tx : t) : TransactionVersion :=
  VersionedMessage.version (message tx).
End VersionedTransaction.

Module SignaturePubkeyPair.
Record t := {
  signature : option Bytes;           (* Buffer | null *)
  publicKey : option PublicKey        (* undefined when the key is absent *)
}.
End SignaturePubkeyPair.

Module Transaction.
Record t := {
  feePayer : option PublicKey;
  recentBlockhash : option string;
  signatures : list SignaturePubkeyPair.t;
  instructions : Bytes                (* opaque to the handler *)
}.
End Transaction.

Record Keypair := {
  publicKey : PublicKey;
  secretKey : Bytes
}.

(** ** Configuration, requests and responses *)

Inductive ReturnSignatureConfigField :=
| AllowAll
| ReCaptcha (reCaptchaMinScore : Z).

Record Config := {
  maxSignatures : Z;
  returnSignature : option ReturnSignatureConfigField   (* None: null or undefined *)
}.

Record Request := {
  body_transaction : JsValue;           (* request.body?.transaction *)
  challenge : option string             (* anti-abuse token, if any *)
}.

(** The JSON object handed to [send], as its list of fields. *)
Record Response := {
  statusCode : Z;
  body : list (string * string)
}.

Definition error_response (message : string) : Response :=
  {| statusCode := 400; body := [("status", "error"); ("message", message)] |}.

Definition ok_response (signature : string) : Response :=
  {| statusCode := 200; body := [("status", "ok"); ("signature", signature)] |}.

(** ** External calls *)

(** What the handler asks of the outside world once it holds the lock. *)
Inductive Event :=
| EvIsBlockhashValid (blockhash : string)
| EvValidateInstructions
| EvSignLegacy (tx : Transaction.t)
| EvSignV0 (tx : VersionedTransaction.t)
| EvSimulateRaw (raw : Bytes)
| EvSimulateV0 (tx : VersionedTransaction.t)
| EvAntiSpam
| EvSubmit (raw : Bytes).

Definition is_sign (e : Event) : bool :=
  match e with EvSignLegacy _ | EvSignV0 _ => true | _ => false end.
Definition is_simulate (e : Event) : bool :=
  match e with EvSimulateRaw _ | EvSimulateV0 _ => true | _ => false end.
Definition is_submit (e : Event) : bool :=
  match e with EvSubmit _ => true | _ => false end.
(** The calls that go over the network to the ledger RPC node. *)
Definition is_network (e : Event) : bool :=
  match e with
  | EvIsBlockhashValid _ | EvSimulateRaw _ | EvSimulateV0 _ | EvSubmit _ => true
  | _ => false
  end.

(** The codec and crypto library (bs58, solana web3.js, sha256): functions
    of their arguments; the decoders and signers may throw. *)
Record Codec := {
  base58_decode : string -> result Bytes;
  base58_encode : Bytes -> string;
  sha256 : Bytes -> Bytes;
  deserialize : Bytes -> result VersionedTransaction.t;
  message_serialize : VersionedMessage.t -> Bytes;
  transaction_from : Bytes -> result Transaction.t;
  partialSign : Keypair -> Transaction.t -> result Transaction.t;
  transaction_serialize : Transaction.t -> result Bytes;
  versioned_sign : Keypair -> VersionedTransaction.t -> result VersionedTransaction.t;
  versioned_serialize : VersionedTransaction.t -> result Bytes
}.

(** The ledger connection and the other collaborators; their answers are
    those given to one request.  A simulation answers [None] when
    [value.err] is null and [Some d] otherwise, [d] being the JSON text of
    the error. *)
Record Ledger := {
  isBlockhashValid : string -> result bool;
  validateInstructions : Transaction.t -> result unit;
  simulate_raw : Bytes -> result (option string);
  simulateTransaction : VersionedTransaction.t -> result (option string);
  sendAndConfirmRawTransaction : Bytes -> result unit;
  scoreChallenge : Request -> Z -> result bool
}.

(** ** The writer-exception monad of the handler body *)

Definition Pipe (A : Type) : Type := (list Event * result A)%type.

#[export] Instance pipe_ret : MRet Pipe := fun A a => ([], Ok a).
#[export] Instance pipe_bind : MBind Pipe := fun A B k m =>
  match m with
  | (evs, Ok a) => let '(evs', r) := k a in (evs ++ evs', r)
  | (evs, Throw e) => (evs, Throw e)
  end.

(** [throw new Error(message)] *)
Definition throw {A} (message : string) : Pipe A := ([], Throw (JsError message)).
(** A library call that leaves no trace. *)
Definition lift {A} (r : result A) : Pipe A := ([], r).
(** An external call: logged, then its value or its exception. *)
Definition call {A} (e : Event) (r : result A) : Pipe A := ([e], r).

Definition events {A} (p : Pipe A) : list Event := fst p.
Definition outcome {A} (p : Pipe A) : result A := snd p.

(** ** The duplicate cache *)

(** Modelled from the spec: the [cache] object imported from
    packages/server/src, whose source is missing.  "Duplicate Lock Entry: keyed by a cryptographic digest of
    the message bytes; value is a boolean presence marker; lifetime is a
    short fixed window (default 5 seconds) after which the entry expires".
    An entry maps the key to the instant at which it expires; the marker
    stored is always [true]. *)
Record Cache := {
  ttl : Z;
  entries : gmap string Z
}.

(** Modelled from the spec: [cache.get(key)] is truthy while the entry
    lives, that is strictly before its expiry instant. *)
Definition cache_get (c : Cache) (now : Z) (key : string) : bool :=
  match entries c !! key with
  | Some expiry => now <? expiry
  | None => false
  end.

(** Modelled from the spec: [cache.set(key, true)] starts a new window of
    [ttl] from the current instant. *)
Definition cache_set (c : Cache) (now : Z) (key : string) : Cache :=
  {| ttl := ttl c; entries := <[key := now + ttl c]> (entries c) |}.

Definition default_ttl : Z := 5.

Record World := {
  cache : Cache;
  trace : list Event
}.

(** ** The handler *)

Section Handler.

Context (codec : Codec) (ENV_SECRET_KEYPAIR : Keypair) (config : Config).

(** [!legacyTx.recentBlockhash]: undefined and the empty string are falsy. *)
Definition truthy_blockhash (b : option string) : option string :=
  match b with
  | Some s => if bool_decide (s = EmptyString) then None else Some s
  | None => None
  end.

(** Lines 94-98: every secondary slot must carry a key and a signature. *)
Fixpoint legacy_require_signed (secondary : list SignaturePubkeyPair.t) : result unit :=
  match secondary with
  | [] => Ok tt
  | sig :: rest =>
      match SignaturePubkeyPair.publicKey sig with
      | None => Throw (JsError "missing public key")
      | Some _ =>
          match SignaturePubkeyPair.signature sig with
          | None => Throw (JsError "missing signature")
          | Some _ => legacy_require_signed rest
          end
      end
  end.

(** [!sig.signature || Array.from(sig.signature).every(byte => byte === 0)] *)
Definition legacy_unsigned (sig : SignaturePubkeyPair.t) : bool :=
  match SignaturePubkeyPair.signature sig with
  | None => true
  | Some bytes => every_zero bytes
  end.

(** Lines 73-99: the signature checks of the legacy branch. *)
Definition legacy_check_signatures (legacyTx : Transaction.t) : result unit :=
  match Transaction.signatures legacyTx with
  | [] => Throw (JsError "no signatures")
  | primary :: secondary =>
      if Z.of_nat (length (Transaction.signatures legacyTx)) >? maxSignatures config
      then Throw (JsError "too many signatures")
      else
        match SignaturePubkeyPair.publicKey primary with
        | None => Throw (JsError "Cannot read properties of undefined (reading 'equals')")
        | Some pk =>
            if negb (equals pk (publicKey ENV_SECRET_KEYPAIR))
            then Throw (JsError "invalid fee payer pubkey")
            else
              match SignaturePubkeyPair.signature primary with
              | Some _ => Throw (JsError "invalid fee payer signature")
              | None =>
                  let allUnsigned := forallb legacy_unsigned secondary in
                  if negb allUnsigned then legacy_require_signed secondary else Ok tt
              end
        end
  end.

(** Lines 185-191: once one secondary slot is signed, none may be null. *)
Fixpoint v0_require_signed (secondary : list Bytes) : result unit :=
  match secondary with
  | [] => Ok tt
  | sig :: rest =>
      if every_zero sig then Throw (JsError "missing required signature")
      else v0_require_signed rest
  end.

(** Lines 155-193: the signature checks of the versioned branch. *)
Definition v0_check_signatures (versionedTransaction : VersionedTransaction.t) : result unit :=
  let signatures := VersionedTransaction.signatures versionedTransaction in
  let numRequiredSignatures :=
    VersionedMessage.numRequiredSignatures (VersionedTransaction.message versionedTransaction) in
  if numRequiredSignatures >? maxSignatures config
  then Throw (JsError "too many signatures")
  else if negb (Z.of_nat (length signatures) =? numRequiredSignatures)
  then Throw (JsError "signature count mismatch")
  else
    match signatures !! 0%nat with
    | None => Throw (JsError "Cannot read properties of undefined (reading 'every')")
    | Some firstSig =>
        let isNullSignature := every_zero firstSig in
        if numRequiredSignatures =? 1 then Ok tt
        else if negb isNullSignature then Throw (JsError "invalid fee payer signature")
        else
          let allUnsigned := forallb every_zero (drop 1 signatures) in
          if negb allUnsigned then v0_require_signed (drop 1 signatures) else Ok tt
    end.

Section Request.

Context (ledger : Ledger) (request : Request).

(** Modelled from the spec: [isReturnedSignatureAllowed], imported from
    packages/server/src, whose source is missing.  "allowAll: sign-and-return
    with no further gate; scored-challenge: sign-and-return only if caller
    passes an external anti-abuse score check with a configured minimum
    threshold". *)
Definition isReturnedSignatureAllowed (field : ReturnSignatureConfigField) : Pipe bool :=
  match field with
  | AllowAll => mret true
  | ReCaptcha minScore => call EvAntiSpam (scoreChallenge ledger request minScore)
  end.

(** Modelled from the spec: [core.simulateRawTransaction], from
    packages/core, whose source is missing.  "The signed transaction is then
    simulated ... Simulation failure aborts the request with
    simulation failed: <details>". *)
Definition simulateRawTransaction (rawTransaction : Bytes) : Pipe unit :=
  simulated ← call (EvSimulateRaw rawTransaction) (simulate_raw ledger rawTransaction);
  match simulated with
  | Some details => throw ("simulation failed: " +:+ details)
  | None => mret tt
  end.

(** Lines 113-131 and, word for word, 208-226: return the signature or
    submit the transaction. *)
Definition dispatch (rawTransaction : Bytes) (signature : string) : Pipe Response :=
  match returnSignature config with
  | Some field =>
      allowed ← isReturnedSignatureAllowed field;
      if negb allowed then mret (error_response "anti-spam check failed")
      else mret (ok_response signature)
  | None =>
      _ ← call (EvSubmit rawTransaction) (sendAndConfirmRawTransaction ledger rawTransaction);
      mret (ok_response signature)
  end.

(** [base58.encode(legacyTx.signature!)] *)
Definition legacy_signature (legacyTx : Transaction.t) : result string :=
  match Transaction.signatures legacyTx with
  | {| SignaturePubkeyPair.signature := Some sig |} :: _ => Ok (base58_encode codec sig)
  | _ => Throw (JsError "Expected Buffer")
  end.

(** Lines 101-131: validate the instructions, co-sign, simulate, dispatch. *)
Definition legacy_cosign (legacyTx : Transaction.t) : Pipe Response :=
  _ ← call EvValidateInstructions (validateInstructions ledger legacyTx);
  signed ← call (EvSignLegacy legacyTx) (partialSign codec ENV_SECRET_KEYPAIR legacyTx);
  rawTransaction ← lift (transaction_serialize codec signed);
  _ ← simulateRawTransaction rawTransaction;
  signature ← lift (legacy_signature signed);
  dispatch rawTransaction signature.

(** Lines 53-131: the legacy branch. *)
Definition sponsor_legacy (buffer : Bytes) : Pipe Response :=
  legacyTx ← lift (transaction_from codec buffer);
  if negb (from_option (fun k => equals k (publicKey ENV_SECRET_KEYPAIR)) false
             (Transaction.feePayer legacyTx))
  then throw "invalid fee payer"
  else
    match truthy_blockhash (Transaction.recentBlockhash legacyTx) with
    | None => throw "missing recent blockhash"
    | Some recentBlockhash =>
        isValid ← call (EvIsBlockhashValid recentBlockhash)
                       (isBlockhashValid ledger recentBlockhash);
        if negb isValid then throw "blockhash not found or expired"
        else
          _ ← lift (legacy_check_signatures legacyTx);
          legacy_cosign legacyTx
    end.

(** [base58.encode(versionedTransaction.signatures[0])] *)
Definition v0_signature (signed : VersionedTransaction.t) : result string :=
  match VersionedTransaction.signatures signed !! 0%nat with
  | Some sig => Ok (base58_encode codec sig)
  | None => Throw (JsError "Expected Buffer")
  end.

(** Lines 195-226: co-sign, simulate, dispatch. *)
Definition v0_cosign (versionedTransaction : VersionedTransaction.t) : Pipe Response :=
  signed ← call (EvSignV0 versionedTransaction)
                (versioned_sign codec ENV_SECRET_KEYPAIR versionedTransaction);
  rawTransaction ← lift (versioned_serialize codec signed);
  simulation ← call (EvSimulateV0 signed) (simulateTransaction ledger signed);
  match simulation with
  | Some err => throw ("simulation failed: " +:+ err)
  | None =>
      signature ← lift (v0_signature signed);
      dispatch rawTransaction signature
  end.

(** Lines 134-226: the versioned branch. *)
Definition sponsor_v0 (versionedTransaction : VersionedTransaction.t) : Pipe Response :=
  let message := VersionedTransaction.message versionedTransaction in
  match VersionedMessage.staticAccountKeys message !! 0%nat with
  | None => throw "Cannot read properties of undefined (reading 'equals')"
  | Some feePayer =>
      if negb (equals feePayer (publicKey ENV_SECRET_KEYPAIR))
      then throw "invalid fee payer"
      else
        let recentBlockhash := VersionedMessage.recentBlockhash message in
        if bool_decide (recentBlockhash = EmptyString)
        then throw "missing recent blockhash"
        else
          isValid ← call (EvIsBlockhashValid recentBlockhash)
                         (isBlockhashValid ledger recentBlockhash);
          if negb isValid then throw "blockhash not found or expired"
          else
            _ ← lift (v0_check_signatures versionedTransaction);
            v0_cosign versionedTransaction
  end.

(** The key of the duplicate lock (lines 45-46). *)
Definition lock_key (versionedTransaction : VersionedTransaction.t) : string :=
  let messageBytes := message_serialize codec (VersionedTransaction.message versionedTransaction) in
  "transaction/" +:+ base58_encode codec (sha256 codec messageBytes).

(** Lines 52-227: what runs once the lock is taken. *)
Definition sponsor_locked (buffer : Bytes) (versionedTransaction : VersionedTransaction.t)
  : Pipe Response :=
  match VersionedTransaction.version versionedTransaction with
  | Legacy => sponsor_legacy buffer
  | V0 => sponsor_v0 versionedTransaction
  end.

(** Lines 228-234: the catch-all. *)
Definition catch_all (r : result Response) : Response :=
  match r with
  | Ok response => response
  | Throw (JsError message) => error_response message
  | Throw JsOther => error_response ""
  end.

(** What a request ends with: a response sent by the handler, or an
    exception that leaves the handler. *)
Inductive Outcome :=
| Sent (response : Response)
| Unhandled (e : Thrown).

(** The handler (lines 20-235), entered after [cors] and [rateLimit] have
    let the request through, when no other request runs between its
    awaits; [now] is the instant at which the cache is consulted.  The
    handler cut at the await between [cache.get] and [cache.set] is
    [lookup] and [resume] below. *)
Definition sponsor (now : Z) (w : World) : Outcome * World :=
  match body_transaction request with
  | JsString serialized =>
      match base58_decode codec serialized with
      | Throw e => (Unhandled e, w)
      | Ok buffer =>
          match deserialize codec buffer with
          | Throw (JsError message) => (Sent (error_response message), w)
          | Throw JsOther => (Sent (error_response "can't decode transaction"), w)
          | Ok versionedTransaction =>
              let key := lock_key versionedTransaction in
              if cache_get (cache w) now key
              then (Sent (catch_all (Throw (JsError "duplicate transaction"))), w)
              else
                let p := sponsor_locked buffer versionedTransaction in
                (Sent (catch_all (outcome p)),
                 {| cache := cache_set (cache w) now key;
                    trace := trace w ++ events p |})
          end
      end
  | _ => (Sent (error_response "request should contain transaction"), w)
  end.

End Request.
End Handler.

(** ** A concrete codec and ledger for the examples *)

Module Sample.

(** The Bitcoin alphabet used by the bs58 package. *)
Definition ALPHABET : list ascii :=
  list_ascii_of_string "123456789ABCDEFGHJKLMNPQRSTUVWXYZabcdefghijkmnopqrstuvwxyz".

Fixpoint index_of (c : ascii) (l : list ascii) : option Z :=
  match l with
  | [] => None
  | x :: rest => if bool_decide (x = c) then Some 0 else Z.succ <$> index_of c rest
  end.

(** Big-endian digits of [n] in the given base, least significant first in
    the accumulator. *)
Fixpoint to_digits (fuel : nat) (base n : Z) (acc : list Z) : list Z :=
  match fuel with
  | O => acc
  | S fuel' => if n =? 0 then acc else to_digits fuel' base (n / base) (n mod base :: acc)
  end.

Definition of_digits (base : Z) (digits : list Z) : Z :=
  fold_left (fun acc d => acc * base + d) digits 0.

Fixpoint leading (z : Z) (l : list Z) : nat :=
  match l with
  | x :: rest => if x =? z then S (leading z rest) else O
  | [] => O
  end.

(** [base58.decode]: throws on a character outside the alphabet. *)
Definition bs58_decode (s : string) : result Bytes :=
  match mapM (fun c => index_of c ALPHABET) (list_ascii_of_string s) with
  | None => Throw (JsError "Non-base58 character")
  | Some digits =>
      let zeros := leading 0 digits in
      Ok (replicate zeros 0 ++ to_digits (length digits) 256 (of_digits 58 digits) [])
  end.

(** [base58.encode] *)
Definition bs58_encode (bytes : Bytes) : string :=
  let zeros := leading 0 bytes in
  let digits := replicate zeros 0 ++ to_digits (2 * length bytes) 58 (of_digits 256 bytes) [] in
  string_of_list_ascii
    (map (fun d => nth (Z.to_nat d) ALPHABET "1"%char) digits).

(** The signature that the sample signer produces. *)
Definition service_signature : Bytes := [7; 7; 7; 7].

(** A codec that decodes every buffer to the given pair of views; it base58
    decodes for real, uses the identity as digest, and signs slot 0. *)
Definition codec_of (vtx : VersionedTransaction.t) (ltx : Transaction.t) : Codec := {|
  base58_decode := bs58_decode;
  base58_encode := bs58_encode;
  sha256 := fun bytes => bytes;
  deserialize := fun _ => Ok vtx;
  message_serialize := fun m =>
    VersionedMessage.numRequiredSignatures m :: VersionedMessage.instructions m;
  transaction_from := fun _ => Ok ltx;
  partialSign := fun _ tx =>
    Ok {| Transaction.feePayer := Transaction.feePayer tx;
          Transaction.recentBlockhash := Transaction.recentBlockhash tx;
          Transaction.signatures :=
            match Transaction.signatures tx with
            | p :: rest =>
                {| SignaturePubkeyPair.signature := Some service_signature;
                   SignaturePubkeyPair.publicKey := SignaturePubkeyPair.publicKey p |} :: rest
            | [] => []
            end;
          Transaction.instructions := Transaction.instructions tx |};
  transaction_serialize := fun tx => Ok (1 :: Transaction.instructions tx);
  versioned_sign := fun _ tx =>
    Ok {| VersionedTransaction.message := VersionedTransaction.message tx;
          VersionedTransaction.signatures :=
            <[0%nat := service_signature]> (VersionedTransaction.signatures tx) |};
  versioned_serialize := fun tx =>
    Ok (concat (VersionedTransaction.signatures tx)
        ++ VersionedMessage.instructions (VersionedTransaction.message tx))
|}.

(** A ledger on which every query succeeds. *)
Definition ledger_ok : Ledger := {|
  isBlockhashValid := fun _ => Ok true;
  validateInstructions := fun _ => Ok tt;
  simulate_raw := fun _ => Ok None;
  simulateTransaction := fun _ => Ok None;
  sendAndConfirmRawTransaction := fun _ => Ok tt;
  scoreChallenge := fun _ _ => Ok true
|}.

(** A ledger on which the dry run reports an error. *)
Definition ledger_sim_err : Ledger := {|
  isBlockhashValid := fun _ => Ok true;
  validateInstructions := fun _ => Ok tt;
  simulate_raw := fun _ => Ok (Some "{InstructionError:[0,Custom]}");
  simulateTransaction := fun _ => Ok (Some "{InstructionError:[0,Custom]}");
  sendAndConfirmRawTransaction := fun _ => Ok tt;
  scoreChallenge := fun _ _ => Ok true
|}.

Definition custodial : Keypair := {| publicKey := [11; 22; 33]; secretKey := [99] |}.
Definition stranger : PublicKey := [44; 55; 66].
Definition user : PublicKey := [12; 34; 56].
Definition other_user : PublicKey := [21; 43; 65].
Definition user_signature : Bytes := [3; 1; 4; 1].

Definition config_submit (max : Z) : Config :=
  {| maxSignatures := max; returnSignature := None |}.
Definition config_allowAll (max : Z) : Config :=
  {| maxSignatures := max; returnSignature := Some AllowAll |}.

Definition request_of (serialized : string) : Request :=
  {| body_transaction := JsString serialized; challenge := None |}.

(** A wire string and the bytes it decodes to. *)
Definition wire : string := "3yZe7d".
Definition wire_bytes : Bytes := [116; 101; 115; 116].

Definition empty_world : World :=
  {| cache := {| ttl := default_ttl; entries := ∅ |}; trace := [] |}.

(** A versioned transaction with the given fee payer, count and slots. *)
Definition v0_tx (payer : PublicKey) (n : Z) (slots : list Bytes) : VersionedTransaction.t := {|
  VersionedTransaction.message := {|
    VersionedMessage.version := V0;
    VersionedMessage.numRequiredSignatures := n;
    VersionedMessage.staticAccountKeys := [payer; user; other_user];
    VersionedMessage.recentBlockhash := "EkSnNWid2cvwEVnVx9aBqawnmiCNiDgp3gUdkDPTKN1N";
    VersionedMessage.instructions := [2; 0; 1] |};
  VersionedTransaction.signatures := slots
|}.

(** The versioned view of a legacy wire transaction. *)
Definition legacy_vtx (payer : PublicKey) (n : Z) (slots : list Bytes) : VersionedTransaction.t := {|
  VersionedTransaction.message := {|
    VersionedMessage.version := Legacy;
    VersionedMessage.numRequiredSignatures := n;
    VersionedMessage.staticAccountKeys := [payer; user; other_user];
    VersionedMessage.recentBlockhash := "EkSnNWid2cvwEVnVx9aBqawnmiCNiDgp3gUdkDPTKN1N";
    VersionedMessage.instructions := [2; 0; 1] |};
  VersionedTransaction.signatures := slots
|}.

Definition slot (sig : option Bytes) (key : PublicKey) : SignaturePubkeyPair.t :=
  {| SignaturePubkeyPair.signature := sig; SignaturePubkeyPair.publicKey := Some key |}.

(** A legacy transaction with the given fee payer and slots. *)
Definition legacy_tx (payer : PublicKey) (slots : list SignaturePubkeyPair.t) : Transaction.t := {|
  Transaction.feePayer := Some payer;
  Transaction.recentBlockhash := Some "EkSnNWid2cvwEVnVx9aBqawnmiCNiDgp3gUdkDPTKN1N";
  Transaction.signatures := slots;
  Transaction.instructions := [2; 0; 1]
|}.

Definition dummy_legacy : Transaction.t := legacy_tx [] [].

Definition zero_sig : Bytes := [0; 0; 0; 0].

Definition blockhash : string := "EkSnNWid2cvwEVnVx9aBqawnmiCNiDgp3gUdkDPTKN1N".

(** The codec for a versioned transaction paid by the custodial key. *)
Definition codec_v0 (n : Z) (slots : list Bytes) : Codec :=
  codec_of (v0_tx (publicKey custodial) n slots) dummy_legacy.

(** The codec for a legacy transaction paid by the custodial key: the wire
    carries one signature per slot, all zero for a null slot. *)
Definition codec_legacy (slots : list SignaturePubkeyPair.t) : Codec :=
  codec_of
    (legacy_vtx (publicKey custodial) (Z.of_nat (length slots))
       (map (fun p => default zero_sig (SignaturePubkeyPair.signature p)) slots))
    (legacy_tx (publicKey custodial) slots).

End Sample.

Import Sample.

(** ** Reading a run of the handler *)

(** The buffer and the transaction that the request decodes to (lines
    25-41), if it does. *)
Definition decode_request (codec : Codec) (request : Request)
  : option (Bytes * VersionedTransaction.t) :=
  match body_transaction request with
  | JsString serialized =>
      match base58_decode codec serialized with
      | Ok buffer =>
          match deserialize codec buffer with
          | Ok versionedTransaction => Some (buffer, versionedTransaction)
          | Throw _ => None
          end
      | Throw _ => None
      end
  | _ => None
  end.

(** The request decodes and finds no live lock on its digest: it takes the
    lock and enters the validation stages. *)
Definition admitted (codec : Codec) (request : Request) (now : Z) (w : World)
  : option (Bytes * VersionedTransaction.t) :=
  match decode_request codec request with
  | Some (buffer, versionedTransaction) =>
      if cache_get (cache w) now (lock_key codec versionedTransaction) then None
      else Some (buffer, versionedTransaction)
  | None => None
  end.

Section Run.

Context (codec : Codec) (kp : Keypair) (config : Config) (ledger : Ledger)
        (request : Request) (now : Z) (w : World).

(** What the handler answers. *)
Definition sent : Outcome := fst (sponsor codec kp config ledger request now w).

(** The world it leaves. *)
Definition after : World := snd (sponsor codec kp config ledger request now w).

(** The external calls it makes, in order. *)
Definition emitted : list Event := drop (length (trace w)) (trace after).

End Run.

(** ** The notions that the statements use *)

(** The fee payer that the branch reads is not the custodial key: the
    [feePayer] of the legacy view (absent, or another key), or the static
    account key 0 of the versioned message. *)
Inductive FeePayerMismatch (codec : Codec) (kp : Keypair) (buffer : Bytes)
  (vtx : VersionedTransaction.t) : Prop :=
| mismatch_legacy (legacyTx : Transaction.t) :
    VersionedTransaction.version vtx = Legacy ->
    transaction_from codec buffer = Ok legacyTx ->
    Transaction.feePayer legacyTx <> Some (publicKey kp) ->
    FeePayerMismatch codec kp buffer vtx
| mismatch_v0 (feePayer : PublicKey) :
    VersionedTransaction.version vtx = V0 ->
    VersionedMessage.staticAccountKeys (VersionedTransaction.message vtx) !! 0%nat = Some feePayer ->
    feePayer <> publicKey kp ->
    FeePayerMismatch codec kp buffer vtx.

(** The view whose signature slots the branch inspects. *)
Inductive SignatureView :=
| LegacyView (legacyTx : Transaction.t)
| V0View (versionedTransaction : VersionedTransaction.t).

(** The legacy branch passes the fee payer and blockhash stages (lines
    55-71); gives the blockhash that was queried. *)
Definition legacy_fresh (codec : Codec) (kp : Keypair) (ledger : Ledger) (buffer : Bytes)
  : option (string * SignatureView) :=
  match transaction_from codec buffer with
  | Ok legacyTx =>
      if from_option (fun k => equals k (publicKey kp)) false (Transaction.feePayer legacyTx)
      then
        match truthy_blockhash (Transaction.recentBlockhash legacyTx) with
        | Some recentBlockhash =>
            match isBlockhashValid ledger recentBlockhash with
            | Ok true => Some (recentBlockhash, LegacyView legacyTx)
            | _ => None
            end
        | None => None
        end
      else None
  | Throw _ => None
  end.

(** The versioned branch passes the fee payer and blockhash stages (lines
    135-153). *)
Definition v0_fresh (kp : Keypair) (ledger : Ledger) (vtx : VersionedTransaction.t)
  : option (string * SignatureView) :=
  let message := VersionedTransaction.message vtx in
  match VersionedMessage.staticAccountKeys message !! 0%nat with
  | Some feePayer =>
      if equals feePayer (publicKey kp)
      then
        let recentBlockhash := VersionedMessage.recentBlockhash message in
        if bool_decide (recentBlockhash = EmptyString) then None
        else
          match isBlockhashValid ledger recentBlockhash with
          | Ok true => Some (recentBlockhash, V0View vtx)
          | _ => None
          end
      else None
  | None => None
  end.

(** The request takes the lock and passes the fee payer and blockhash
    stages: it reaches the signature checks. *)
Definition reaches_signature_checks (codec : Codec) (kp : Keypair) (ledger : Ledger)
  (request : Request) (now : Z) (w : World) : option (string * SignatureView) :=
  match admitted codec request now w with
  | Some (buffer, vtx) =>
      match VersionedTransaction.version vtx with
      | Legacy => legacy_fresh codec kp ledger buffer
      | V0 => v0_fresh kp ledger vtx
      end
  | None => None
  end.

(** The signature checks of the branch, and what follows them. *)
Definition check_signatures (kp : Keypair) (config : Config) (view : SignatureView)
  : result unit :=
  match view with
  | LegacyView legacyTx => legacy_check_signatures kp config legacyTx
  | V0View vtx => v0_check_signatures config vtx
  end.

Definition cosign (codec : Codec) (kp : Keypair) (config : Config) (ledger : Ledger)
  (request : Request) (view : SignatureView) : Pipe Response :=
  match view with
  | LegacyView legacyTx => legacy_cosign codec kp config ledger request legacyTx
  | V0View vtx => v0_cosign codec kp config ledger request vtx
  end.

(** The number of signatures as the branch counts them: the slots of the
    legacy view, the declared count of the versioned message. *)
Definition signature_count (view : SignatureView) : Z :=
  match view with
  | LegacyView legacyTx => Z.of_nat (length (Transaction.signatures legacyTx))
  | V0View vtx =>
      VersionedMessage.numRequiredSignatures (VersionedTransaction.message vtx)
  end.

(** The view has no signature slot at all. *)
Definition no_slots (view : SignatureView) : bool :=
  match view with
  | LegacyView legacyTx => bool_decide (Transaction.signatures legacyTx = [])
  | V0View vtx => bool_decide (VersionedTransaction.signatures vtx = [])
  end.

(** Some secondary slot is signed and some is empty (all zero). *)
Definition v0_mixed (secondary : list Bytes) : bool :=
  existsb (fun sig => negb (every_zero sig)) secondary && existsb every_zero secondary.

(** Some secondary slot is signed and some is null. *)
Definition legacy_mixed (secondary : list SignaturePubkeyPair.t) : bool :=
  existsb (fun sig => negb (legacy_unsigned sig)) secondary
  && existsb (fun sig => bool_decide (SignaturePubkeyPair.signature sig = None)) secondary.

(** Every secondary slot has its account key. *)
Definition legacy_keyed (secondary : list SignaturePubkeyPair.t) : bool :=
  forallb (fun sig => bool_decide (is_Some (SignaturePubkeyPair.publicKey sig))) secondary.

(** What the dry run answered, for a simulation call. *)
Definition simulation_report (ledger : Ledger) (e : Event) : option (result (option string)) :=
  match e with
  | EvSimulateRaw raw => Some (simulate_raw ledger raw)
  | EvSimulateV0 tx => Some (simulateTransaction ledger tx)
  | _ => None
  end.

(** The simulation call [sim] dry-runs the transaction whose wire bytes are
    [raw]. *)
Definition simulates (codec : Codec) (sim : Event) (raw : Bytes) : Prop :=
  match sim with
  | EvSimulateRaw raw' => raw' = raw
  | EvSimulateV0 signed => versioned_serialize codec signed = Ok raw
  | _ => False
  end.

(** Two shapes of a run: either nothing is submitted, and a dry run that
    reported an error ended the run with that error; or the run ends with
    signing, a dry run without error and the submission of what was
    simulated, in this order. *)
Definition Guarded (codec : Codec) (ledger : Ledger) (p : Pipe Response) : Prop :=
  (existsb is_submit (events p) = false
   /\ forall sim details,
        In sim (events p) ->
        simulation_report ledger sim = Some (Ok (Some details)) ->
        outcome p = Throw (JsError ("simulation failed: " +:+ details)))
  \/ (exists earlier sign sim raw,
        events p = earlier ++ [sign; sim; EvSubmit raw]
        /\ is_sign sign = true
        /\ simulates codec sim raw
        /\ simulation_report ledger sim = Some (Ok None)
        /\ existsb is_submit earlier = false
        /\ existsb is_simulate earlier = false).

(** The signature identifier of the co-signed transaction: base58 of its
    slot 0 (lines 111 and 206). *)
Definition cosigned_signature (codec : Codec) (kp : Keypair) (view : SignatureView)
  : result string :=
  match view with
  | LegacyView legacyTx =>
      match partialSign codec kp legacyTx with
      | Ok signed => legacy_signature codec signed
      | Throw e => Throw e
      end
  | V0View vtx =>
      match versioned_sign codec kp vtx with
      | Ok signed => v0_signature codec signed
      | Throw e => Throw e
      end
  end.


(** A world in which nothing was ever sponsored. *)
Definition fresh_world (ttl : Z) : World :=
  {| cache := {| ttl := ttl; entries := ∅ |}; trace := [] |}.

(** ** The handler between two awaits *)

(** Where a request stands once [cache.get] has answered (line 47): it
    holds the transaction it decoded and is about to call [cache.set]
    (line 50), or it is answered already. *)
Inductive Flight :=
| Checked (buffer : Bytes) (versionedTransaction : VersionedTransaction.t)
| Answered (o : Outcome).

(** Lines 25-49: the decoding and the cache lookup, made at the instant
    [now].  It reads the cache and writes nothing. *)
Definition lookup (codec : Codec) (request : Request) (now : Z) (w : World) : Flight :=
  match body_transaction request with
  | JsString serialized =>
      match base58_decode codec serialized with
      | Throw e => Answered (Unhandled e)
      | Ok buffer =>
          match deserialize codec buffer with
          | Throw (JsError message) => Answered (Sent (error_response message))
          | Throw JsOther => Answered (Sent (error_response "can't decode transaction"))
          | Ok versionedTransaction =>
              if cache_get (cache w) now (lock_key codec versionedTransaction)
              then Answered (Sent (catch_all (Throw (JsError "duplicate transaction"))))
              else Checked buffer versionedTransaction
          end
      end
  | _ => Answered (Sent (error_response "request should contain transaction"))
  end.

(** Lines 50-234: the cache write, made at the instant [now] in the world
    of that instant, and all that follows it. *)
Definition resume (codec : Codec) (kp : Keypair) (config : Config) (ledger : Ledger)
  (request : Request) (now : Z) (buffer : Bytes) (vtx : VersionedTransaction.t) (w : World)
  : Outcome * World :=
  let p := sponsor_locked codec kp config ledger request buffer vtx in
  (Sent (catch_all (outcome p)),
   {| cache := cache_set (cache w) now (lock_key codec vtx);
      trace := trace w ++ events p |}).

(** The worlds that cache writes of the handler lead to, the writes being
    made at instants not before [t], on keys that satisfy [P], by any
    requests in flight.  Lookups and answers write nothing. *)
Inductive Writes (codec : Codec) (kp : Keypair) (config : Config) (P : string -> Prop)
  (t : Z) : World -> World -> Prop :=
| writes_none w : Writes codec kp config P t w w
| writes_resume w w' ledger request now buffer vtx :
    t <= now ->
    P (lock_key codec vtx) ->
    Writes codec kp config P t
      (snd (resume codec kp config ledger request now buffer vtx w)) w' ->
    Writes codec kp config P t w w'.

(** The digest of the message of a transaction, as the lock key names it
    (line 46). *)
Definition message_digest (codec : Codec) (vtx : VersionedTransaction.t) : string :=
  base58_encode codec (sha256 codec (message_serialize codec (VersionedTransaction.message vtx))).

(** The co-signed transaction: the dry run that the branch makes of it
    and its wire bytes (lines 105-109 and 196-200). *)
Definition signed_wire (codec : Codec) (kp : Keypair) (view : SignatureView)
  : result (Event * Bytes) :=
  match view with
  | LegacyView legacyTx =>
      match partialSign codec kp legacyTx with
      | Ok signed =>
          match transaction_serialize codec signed with
          | Ok raw => Ok (EvSimulateRaw raw, raw)
          | Throw e => Throw e
          end
      | Throw e => Throw e
      end
  | V0View vtx =>
      match versioned_sign codec kp vtx with
      | Ok signed =>
          match versioned_serialize codec signed with
          | Ok raw => Ok (EvSimulateV0 signed, raw)
          | Throw e => Throw e
          end
      | Throw e => Throw e
      end
  end.

(** What lets the co-signed transaction out (lines 113-131, 208-226): the
    return gate when [returnSignature] is set, the confirmed submission
    otherwise. *)
Definition released (config : Config) (ledger : Ledger) (request : Request) (raw : Bytes)
  : Prop :=
  match returnSignature config with
  | Some field => outcome (isReturnedSignatureAllowed ledger request field) = Ok true
  | None => sendAndConfirmRawTransaction ledger raw = Ok tt
  end.

(** ** The health probe (pages/api/health.ts) *)

Module Health.

Inductive Status := healthy | unhealthy.

(** The [rpc] object of the answer; an absent field is [None]. *)
Record Rpc := {
  connected : bool;
  blockheight : option Z;
  error : option string
}.

Record HealthResponse := {
  status : Status;
  timestamp : string;
  feePayer : string;
  rpc : Rpc
}.

Record Answer := {
  code : Z;
  json : HealthResponse
}.

(** The handler (lines 16-45): [timestamp] is [new Date().toISOString()]
    read on entry, [getBlockHeight] what the RPC node answers. *)
Definition handler (toBase58 : PublicKey -> string) (ENV_FEE_PAYER : PublicKey)
  (timestamp : string) (getBlockHeight : result Z) : Answer :=
  match getBlockHeight with
  | Ok blockHeight =>
      {| code := 200;
         json := {| status := healthy;
                    timestamp := timestamp;
                    feePayer := toBase58 ENV_FEE_PAYER;
                    rpc := {| connected := true;
                              blockheight := Some blockHeight;
                              error := None |} |} |}
  | Throw e =>
      let errorMessage :=
        match e with JsError message => message | JsOther => "Unknown error"%string end in
      {| code := 503;
         json := {| status := unhealthy;
                    timestamp := timestamp;
                    feePayer := toBase58 ENV_FEE_PAYER;
                    rpc := {| connected := false;
                              blockheight := None;
                              error := Some errorMessage |} |} |}
  end.

End Health.

(** ** Further notions *)

(** The place of an external call in the course of the handler. *)
Definition stage (e : Event) : nat :=
  match e with
  | EvIsBlockhashValid _ => 0
  | EvValidateInstructions => 1
  | EvSignLegacy _ | EvSignV0 _ => 2
  | EvSimulateRaw _ | EvSimulateV0 _ => 3
  | EvAntiSpam | EvSubmit _ => 4
  end.

(** The signing call for the view. *)
Definition sign_event (view : SignatureView) : Event :=
  match view with
  | LegacyView legacyTx => EvSignLegacy legacyTx
  | V0View vtx => EvSignV0 vtx
  end.

(** The key of the lock that the request asks for, if it decodes. *)
Definition request_key (codec : Codec) (request : Request) : option string :=
  match decode_request codec request with
  | Some (_, vtx) => Some (lock_key codec vtx)
  | None => None
  end.

(** The blockhash that a transaction with the right fee payer presents to
    the blockhash stage: [Some None] when it is missing or empty; [None]
    when the fee payer stage does not let the transaction through. *)
Definition presented_blockhash (codec : Codec) (kp : Keypair) (buffer : Bytes)
  (vtx : VersionedTransaction.t) : option (option string) :=
  match VersionedTransaction.version vtx with
  | Legacy =>
      match transaction_from codec buffer with
      | Ok legacyTx =>
          if from_option (fun k => equals k (publicKey kp)) false (Transaction.feePayer legacyTx)
          then Some (truthy_blockhash (Transaction.recentBlockhash legacyTx))
          else None
      | Throw _ => None
      end
  | V0 =>
      let message := VersionedTransaction.message vtx in
      match VersionedMessage.staticAccountKeys message !! 0%nat with
      | Some feePayer =>
          if equals feePayer (publicKey kp)
          then Some (if bool_decide (VersionedMessage.recentBlockhash message = EmptyString)
                     then None else Some (VersionedMessage.recentBlockhash message))
          else None
      | None => None
      end
  end.

(** A secondary slot of the legacy view with its key and a signature. *)
Definition legacy_signed (sig : SignaturePubkeyPair.t) : bool :=
  bool_decide (is_Some (SignaturePubkeyPair.publicKey sig))
  && bool_decide (is_Some (SignaturePubkeyPair.signature sig)).

(** ** Further examples *)

(** A codec that decodes the wire string "2g" to one transaction and every
    other buffer to another. *)
Definition codec_two (first second : VersionedTransaction.t) : Codec := {|
  base58_decode := bs58_decode;
  base58_encode := bs58_encode;
  sha256 := fun bytes => bytes;
  deserialize := fun buffer => if bool_decide (buffer = [97]) then Ok second else Ok first;
  message_serialize := message_serialize (codec_of first dummy_legacy);
  transaction_from := transaction_from (codec_of first dummy_legacy);
  partialSign := partialSign (codec_of first dummy_legacy);
  transaction_serialize := transaction_serialize (codec_of first dummy_legacy);
  versioned_sign := versioned_sign (codec_of first dummy_legacy);
  versioned_serialize := versioned_serialize (codec_of first dummy_legacy)
|}.

(** A ledger on which no blockhash is valid any more. *)
Definition ledger_stale : Ledger := {|
  isBlockhashValid := fun _ => Ok false;
  validateInstructions := fun _ => Ok tt;
  simulate_raw := fun _ => Ok None;
  simulateTransaction := fun _ => Ok None;
  sendAndConfirmRawTransaction := fun _ => Ok tt;
  scoreChallenge := fun _ _ => Ok true
|}.

(** A ledger whose node cannot be reached. *)
Definition ledger_down : Ledger := {|
  isBlockhashValid := fun _ => Throw (JsError "fetch failed");
  validateInstructions := fun _ => Ok tt;
  simulate_raw := fun _ => Throw (JsError "fetch failed");
  simulateTransaction := fun _ => Throw (JsError "fetch failed");
  sendAndConfirmRawTransaction := fun _ => Throw (JsError "fetch failed");
  scoreChallenge := fun _ _ => Ok true
|}.

(** A legacy transaction paid by the custodial key, without blockhash. *)
Definition legacy_no_blockhash : Transaction.t := {|
  Transaction.feePayer := Some (publicKey custodial);
  Transaction.recentBlockhash := None;
  Transaction.signatures := [slot None (publicKey custodial)];
  Transaction.instructions := [2; 0; 1]
|}.

(** A ledger on which the submission is not confirmed. *)
Definition ledger_unconfirmed : Ledger := {|
  isBlockhashValid := fun _ => Ok true;
  validateInstructions := fun _ => Ok tt;
  simulate_raw := fun _ => Ok None;
  simulateTransaction := fun _ => Ok None;
  sendAndConfirmRawTransaction := fun _ => Throw (JsError "Transaction was not confirmed");
  scoreChallenge := fun _ _ => Ok true
|}.

(** A ledger whose instruction policy refuses everything. *)
Definition ledger_strict : Ledger := {|
  isBlockhashValid := fun _ => Ok true;
  validateInstructions := fun _ => Throw (JsError "program not allowed");
  simulate_raw := fun _ => Ok None;
  simulateTransaction := fun _ => Ok None;
  sendAndConfirmRawTransaction := fun _ => Ok tt;
  scoreChallenge := fun _ _ => Ok true
|}.


(** The calls of the co-signing stage before the signing: the instruction
    check, in the legacy branch only (line 102). *)
Definition policy_events (view : SignatureView) : list Event :=
  match view with
  | LegacyView _ => [EvValidateInstructions]
  | V0View _ => []
  end.

(** The instruction check lets the transaction through; the versioned
    branch makes none. *)
Definition policy_passed (ledger : Ledger) (view : SignatureView) : Prop :=
  match view with
  | LegacyView legacyTx => validateInstructions ledger legacyTx = Ok tt
  | V0View _ => True
  end.

(** ** Basic facts *)

Ltac pipe_unfold :=
  unfold mbind, pipe_bind, mret, pipe_ret, lift, call, throw, events, outcome in *.

Lemma drop_length_app {A} (l k : list A) : drop (length l) (l ++ k) = k.
Proof. induction l; simpl; auto. Qed.

Lemma drop_length_self {A} (l : list A) : drop (length l) l = [].
Proof. induction l; simpl; auto. Qed.

Lemma admitted_decodes codec request now w buffer vtx :
  admitted codec request now w = Some (buffer, vtx) ->
  decode_request codec request = Some (buffer, vtx)
  /\ cache_get (cache w) now (lock_key codec vtx) = false.
Proof.
  unfold admitted. destruct (decode_request codec request) as [[b v]|]; [|discriminate].
  destruct (cache_get _ _ _) eqn:E; [discriminate|].
  intros [= <- <-]. auto.
Qed.

(** A request that takes the lock runs the body once; the lock stays. *)
Lemma sponsor_admitted codec kp config ledger request now w buffer vtx :
  admitted codec request now w = Some (buffer, vtx) ->
  sponsor codec kp config ledger request now w =
    (Sent (catch_all (outcome (sponsor_locked codec kp config ledger request buffer vtx))),
     {| cache := cache_set (cache w) now (lock_key codec vtx);
        trace := trace w ++ events (sponsor_locked codec kp config ledger request buffer vtx) |}).
Proof.
  intros H. apply admitted_decodes in H as [Hd Hc].
  unfold decode_request in Hd. unfold sponsor.
  destruct (body_transaction request); try discriminate.
  destruct (base58_decode codec s); try discriminate.
  destruct (deserialize codec a); try discriminate.
  injection Hd as <- <-. rewrite Hc. reflexivity.
Qed.

Lemma sent_admitted codec kp config ledger request now w buffer vtx :
  admitted codec request now w = Some (buffer, vtx) ->
  sent codec kp config ledger request now w =
    Sent (catch_all (outcome (sponsor_locked codec kp config ledger request buffer vtx))).
Proof. intros H. unfold sent. now rewrite (sponsor_admitted _ _ _ _ _ _ _ _ _ H). Qed.

Lemma emitted_admitted codec kp config ledger request now w buffer vtx :
  admitted codec request now w = Some (buffer, vtx) ->
  emitted codec kp config ledger request now w =
    events (sponsor_locked codec kp config ledger request buffer vtx).
Proof.
  intros H. unfold emitted, after. rewrite (sponsor_admitted _ _ _ _ _ _ _ _ _ H).
  simpl. apply drop_length_app.
Qed.

(** A request that does not take the lock makes no external call and leaves
    the world as it found it. *)
Lemma sponsor_not_admitted codec kp config ledger request now w :
  admitted codec request now w = None ->
  after codec kp config ledger request now w = w.
Proof.
  unfold admitted, decode_request, after, sponsor.
  destruct (body_transaction request); try reflexivity.
  destruct (base58_decode codec s); try reflexivity.
  destruct (deserialize codec a) as [v|[m|]]; try reflexivity.
  destruct (cache_get _ _ _); [reflexivity|discriminate].
Qed.

Lemma emitted_not_admitted codec kp config ledger request now w :
  admitted codec request now w = None ->
  emitted codec kp config ledger request now w = [].
Proof.
  intros H. unfold emitted. rewrite (sponsor_not_admitted _ _ _ _ _ _ _ H).
  apply drop_length_self.
Qed.

(** ** Fee payer identity *)

Lemma locked_fee_payer_mismatch codec kp config ledger request buffer vtx :
  FeePayerMismatch codec kp buffer vtx ->
  sponsor_locked codec kp config ledger request buffer vtx
  = ([], Throw (JsError "invalid fee payer")).
Proof.
  intros [ltx Hv Hf Hne | k Hv Hk Hne]; unfold sponsor_locked; rewrite Hv.
  - unfold sponsor_legacy. rewrite Hf. pipe_unfold. simpl.
    destruct (Transaction.feePayer ltx) as [k|]; simpl; [|reflexivity].
    unfold equals. rewrite bool_decide_eq_false_2; [reflexivity|congruence].
  - unfold sponsor_v0. rewrite Hk. unfold equals.
    rewrite bool_decide_eq_false_2 by assumption. reflexivity.
Qed.

(** C1, as the code has it.  A request that enters the validation stages
    (it decodes and its digest is not locked) and whose fee payer is not
    the custodial key is answered 400 "invalid fee payer" and makes no
    external call at all: no signing, no simulation, no submission.  Both
    variants. *)
Theorem invalid_fee_payer_rejected codec kp config ledger request now w buffer vtx :
  admitted codec request now w = Some (buffer, vtx) ->
  FeePayerMismatch codec kp buffer vtx ->
  sent codec kp config ledger request now w = Sent (error_response "invalid fee payer")
  /\ emitted codec kp config ledger request now w = []
  /\ trace (after codec kp config ledger request now w) = trace w.
Proof.
  intros Ha Hm.
  pose proof (locked_fee_payer_mismatch codec kp config ledger request buffer vtx Hm) as Hl.
  rewrite (sent_admitted _ _ _ _ _ _ _ _ _ Ha), (emitted_admitted _ _ _ _ _ _ _ _ _ Ha).
  unfold after. rewrite (sponsor_admitted _ _ _ _ _ _ _ _ _ Ha), Hl. simpl.
  rewrite app_nil_r. auto.
Qed.

Lemma invalid_fee_payer_rejected_witness :
  (sent (codec_of (v0_tx stranger 1 [zero_sig]) dummy_legacy) custodial (config_submit 2)
        ledger_ok (request_of wire) 0 empty_world
   = Sent (error_response "invalid fee payer")
   /\ emitted (codec_of (v0_tx stranger 1 [zero_sig]) dummy_legacy) custodial (config_submit 2)
        ledger_ok (request_of wire) 0 empty_world = []
   /\ trace (after (codec_of (v0_tx stranger 1 [zero_sig]) dummy_legacy) custodial
                (config_submit 2) ledger_ok (request_of wire) 0 empty_world)
      = trace empty_world)
  /\
  (sent (codec_of (legacy_vtx stranger 1 [zero_sig]) (legacy_tx stranger [slot None stranger]))
        custodial (config_submit 2) ledger_ok (request_of wire) 0 empty_world
   = Sent (error_response "invalid fee payer")
   /\ emitted (codec_of (legacy_vtx stranger 1 [zero_sig]) (legacy_tx stranger [slot None stranger]))
        custodial (config_submit 2) ledger_ok (request_of wire) 0 empty_world = []
   /\ trace (after (codec_of (legacy_vtx stranger 1 [zero_sig]) (legacy_tx stranger [slot None stranger]))
                custodial (config_submit 2) ledger_ok (request_of wire) 0 empty_world)
      = trace empty_world).
Proof.
  split.
  - apply (invalid_fee_payer_rejected _ _ _ _ _ _ _ wire_bytes
             (v0_tx stranger 1 [zero_sig])).
    + vm_compute. reflexivity.
    + apply (mismatch_v0 _ _ _ _ stranger); [reflexivity|reflexivity|discriminate].
  - apply (invalid_fee_payer_rejected _ _ _ _ _ _ _ wire_bytes
             (legacy_vtx stranger 1 [zero_sig])).
    + vm_compute. reflexivity.
    + apply (mismatch_legacy _ _ _ _ (legacy_tx stranger [slot None stranger]));
        [reflexivity|reflexivity|discriminate].
Defined.

(** C1, as stated, fails for a message that is presented again within the
    TTL: its account key 0 is not the custodial key, yet it is answered
    "duplicate transaction", the duplicate check coming first. *)
Lemma resubmitted_fee_payer_mismatch :
  VersionedMessage.staticAccountKeys
    (VersionedTransaction.message (v0_tx stranger 1 [zero_sig])) !! 0%nat = Some stranger
  /\ stranger <> publicKey custodial
  /\ decode_request (codec_of (v0_tx stranger 1 [zero_sig]) dummy_legacy) (request_of wire)
     = Some (wire_bytes, v0_tx stranger 1 [zero_sig])
  /\ sent (codec_of (v0_tx stranger 1 [zero_sig]) dummy_legacy) custodial (config_submit 2)
          ledger_ok (request_of wire) 1
          (after (codec_of (v0_tx stranger 1 [zero_sig]) dummy_legacy) custodial
                 (config_submit 2) ledger_ok (request_of wire) 0 empty_world)
     = Sent (error_response "duplicate transaction")
  /\ sent (codec_of (v0_tx stranger 1 [zero_sig]) dummy_legacy) custodial (config_submit 2)
          ledger_ok (request_of wire) 1
          (after (codec_of (v0_tx stranger 1 [zero_sig]) dummy_legacy) custodial
                 (config_submit 2) ledger_ok (request_of wire) 0 empty_world)
     <> Sent (error_response "invalid fee payer").
Proof. vm_compute. repeat split; try reflexivity; discriminate. Qed.

(** ** Reaching the signature checks *)

Lemma legacy_fresh_run codec kp config ledger request buffer bh view :
  legacy_fresh codec kp ledger buffer = Some (bh, view) ->
  sponsor_legacy codec kp config ledger request buffer =
    match check_signatures kp config view with
    | Ok _ => (EvIsBlockhashValid bh :: events (cosign codec kp config ledger request view),
               outcome (cosign codec kp config ledger request view))
    | Throw e => ([EvIsBlockhashValid bh], Throw e)
    end.
Proof.
  unfold legacy_fresh, sponsor_legacy.
  destruct (transaction_from codec buffer) as [ltx|]; [|discriminate].
  pipe_unfold. simpl.
  destruct (from_option _ _ _); [|discriminate]. simpl.
  destruct (truthy_blockhash _) as [b|]; [|discriminate].
  destruct (isBlockhashValid ledger b) as [[|]|]; try discriminate.
  intros [= <- <-]. simpl.
  destruct (legacy_check_signatures kp config ltx); simpl; [|reflexivity].
  destruct (legacy_cosign _ _ _ _ _ _). reflexivity.
Qed.

Lemma v0_fresh_run codec kp config ledger request vtx bh view :
  v0_fresh kp ledger vtx = Some (bh, view) ->
  sponsor_v0 codec kp config ledger request vtx =
    match check_signatures kp config view with
    | Ok _ => (EvIsBlockhashValid bh :: events (cosign codec kp config ledger request view),
               outcome (cosign codec kp config ledger request view))
    | Throw e => ([EvIsBlockhashValid bh], Throw e)
    end.
Proof.
  unfold v0_fresh, sponsor_v0.
  destruct (_ !! 0%nat) as [k|]; [|discriminate].
  destruct (equals k (publicKey kp)); [|discriminate]. simpl.
  destruct (bool_decide _); [discriminate|].
  pipe_unfold.
  destruct (isBlockhashValid ledger _) as [[|]|]; try discriminate.
  intros [= <- <-]. simpl.
  destruct (v0_check_signatures config vtx); simpl; [|reflexivity].
  destruct (v0_cosign _ _ _ _ _ _). reflexivity.
Qed.

(** A request that reaches the signature checks has queried the blockhash
    and nothing else; what it answers and what it calls next are decided by
    the checks and the co-signing stage. *)
Lemma reaches_run codec kp config ledger request now w bh view :
  reaches_signature_checks codec kp ledger request now w = Some (bh, view) ->
  match check_signatures kp config view with
  | Ok _ =>
      sent codec kp config ledger request now w
        = Sent (catch_all (outcome (cosign codec kp config ledger request view)))
      /\ emitted codec kp config ledger request now w
        = EvIsBlockhashValid bh :: events (cosign codec kp config ledger request view)
  | Throw e =>
      sent codec kp config ledger request now w = Sent (catch_all (Throw e))
      /\ emitted codec kp config ledger request now w = [EvIsBlockhashValid bh]
  end.
Proof.
  unfold reaches_signature_checks.
  destruct (admitted codec request now w) as [[buffer vtx]|] eqn:Ha; [|discriminate].
  rewrite (sent_admitted _ _ _ _ _ _ _ _ _ Ha), (emitted_admitted _ _ _ _ _ _ _ _ _ Ha).
  unfold sponsor_locked.
  destruct (VersionedTransaction.version vtx); intros Hf.
  - rewrite (legacy_fresh_run _ _ config _ request _ _ _ Hf).
    destruct (check_signatures kp config view); auto.
  - rewrite (v0_fresh_run codec _ config _ request _ _ _ Hf).
    destruct (check_signatures kp config view); auto.
Qed.

Lemma reaches_rejected codec kp config ledger request now w bh view message :
  reaches_signature_checks codec kp ledger request now w = Some (bh, view) ->
  check_signatures kp config view = Throw (JsError message) ->
  sent codec kp config ledger request now w = Sent (error_response message)
  /\ emitted codec kp config ledger request now w = [EvIsBlockhashValid bh].
Proof.
  intros Hr Hc. pose proof (reaches_run codec kp config ledger request now w bh view Hr) as H.
  rewrite Hc in H. exact H.
Qed.

Lemma reaches_passed codec kp config ledger request now w bh view :
  reaches_signature_checks codec kp ledger request now w = Some (bh, view) ->
  check_signatures kp config view = Ok tt ->
  sent codec kp config ledger request now w
    = Sent (catch_all (outcome (cosign codec kp config ledger request view)))
  /\ emitted codec kp config ledger request now w
    = EvIsBlockhashValid bh :: events (cosign codec kp config ledger request view).
Proof.
  intros Hr Hc. pose proof (reaches_run codec kp config ledger request now w bh view Hr) as H.
  rewrite Hc in H. exact H.
Qed.

(** ** The signature checks, case by case *)

Lemma legacy_no_signatures kp config legacyTx :
  Transaction.signatures legacyTx = [] ->
  legacy_check_signatures kp config legacyTx = Throw (JsError "no signatures").
Proof. unfold legacy_check_signatures. now intros ->. Qed.

Lemma legacy_too_many kp config legacyTx :
  Transaction.signatures legacyTx <> [] ->
  maxSignatures config < Z.of_nat (length (Transaction.signatures legacyTx)) ->
  legacy_check_signatures kp config legacyTx = Throw (JsError "too many signatures").
Proof.
  unfold legacy_check_signatures. intros Hne Hlt.
  destruct (Transaction.signatures legacyTx) as [|p s] eqn:E; [congruence|].
  destruct (Z.gtb_spec (Z.of_nat (length (p :: s))) (maxSignatures config)); [reflexivity|lia].
Qed.

Lemma v0_too_many config vtx :
  maxSignatures config
    < VersionedMessage.numRequiredSignatures (VersionedTransaction.message vtx) ->
  v0_check_signatures config vtx = Throw (JsError "too many signatures").
Proof.
  unfold v0_check_signatures. intros Hlt.
  destruct (Z.gtb_spec (VersionedMessage.numRequiredSignatures (VersionedTransaction.message vtx))
              (maxSignatures config)); [reflexivity|lia].
Qed.

Lemma legacy_require_signed_ok secondary :
  legacy_require_signed secondary = Ok tt ->
  Forall (fun sig => is_Some (SignaturePubkeyPair.signature sig)) secondary.
Proof.
  induction secondary as [|sig rest IH]; simpl; [constructor|].
  destruct (SignaturePubkeyPair.publicKey sig); [|discriminate].
  destruct (SignaturePubkeyPair.signature sig) eqn:E; [|discriminate].
  intros H. constructor; [rewrite E; eauto | auto].
Qed.

(** Whoever passes the legacy checks has between 1 and [maxSignatures]
    slots, the first keyed to the custodial key and null. *)
Lemma legacy_checks_passed kp config legacyTx :
  legacy_check_signatures kp config legacyTx = Ok tt ->
  exists primary secondary,
    Transaction.signatures legacyTx = primary :: secondary
    /\ Z.of_nat (length (Transaction.signatures legacyTx)) <= maxSignatures config
    /\ SignaturePubkeyPair.publicKey primary = Some (publicKey kp)
    /\ SignaturePubkeyPair.signature primary = None.
Proof.
  unfold legacy_check_signatures.
  destruct (Transaction.signatures legacyTx) as [|p s]; [discriminate|].
  destruct (Z.gtb_spec (Z.of_nat (length (p :: s))) (maxSignatures config)); [discriminate|].
  destruct (SignaturePubkeyPair.publicKey p) as [pk|] eqn:Ek; [|discriminate].
  unfold equals. destruct (bool_decide_reflect (pk = publicKey kp)); [|discriminate]. simpl.
  destruct (SignaturePubkeyPair.signature p) eqn:Es; [discriminate|].
  intros _. exists p, s. subst pk. auto.
Qed.

(** Whoever passes the versioned checks declares between 1 and
    [maxSignatures] signatures and carries exactly that many slots. *)
Lemma v0_checks_passed config vtx :
  v0_check_signatures config vtx = Ok tt ->
  1 <= VersionedMessage.numRequiredSignatures (VersionedTransaction.message vtx)
    <= maxSignatures config
  /\ Z.of_nat (length (VersionedTransaction.signatures vtx))
     = VersionedMessage.numRequiredSignatures (VersionedTransaction.message vtx).
Proof.
  unfold v0_check_signatures.
  destruct (Z.gtb_spec (VersionedMessage.numRequiredSignatures (VersionedTransaction.message vtx))
              (maxSignatures config)); [discriminate|].
  destruct (Z.eqb_spec (Z.of_nat (length (VersionedTransaction.signatures vtx)))
              (VersionedMessage.numRequiredSignatures (VersionedTransaction.message vtx)));
    [|discriminate]. simpl.
  destruct (VersionedTransaction.signatures vtx) as [|first rest] eqn:E; [discriminate|].
  intros _. simpl length in *. lia.
Qed.

Lemma checks_passed_count kp config view :
  check_signatures kp config view = Ok tt ->
  1 <= signature_count view <= maxSignatures config.
Proof.
  destruct view as [ltx|vtx]; simpl; intros H.
  - destruct (legacy_checks_passed _ _ _ H) as (p & s & E & Hle & _).
    rewrite E in *. simpl length in *. lia.
  - apply v0_checks_passed in H. lia.
Qed.

(** C6, as the code has it.  A transaction that passes the signature
    checks counts between 1 and [maxSignatures] signatures; a count above
    [maxSignatures] is answered 400 "too many signatures"; a legacy
    transaction without any slot is answered 400 "no signatures".  These
    rejections come after the blockhash query to the RPC node, which is the
    only external call made before them, and before any signing,
    simulation or submission. *)
Theorem signature_count_bound codec kp config ledger request now w bh view :
  reaches_signature_checks codec kp ledger request now w = Some (bh, view) ->
  0 <= maxSignatures config ->
  (check_signatures kp config view = Ok tt ->
     1 <= signature_count view <= maxSignatures config)
  /\ (maxSignatures config < signature_count view ->
        sent codec kp config ledger request now w = Sent (error_response "too many signatures")
        /\ emitted codec kp config ledger request now w = [EvIsBlockhashValid bh])
  /\ (forall legacyTx, view = LegacyView legacyTx -> no_slots view = true ->
        sent codec kp config ledger request now w = Sent (error_response "no signatures")
        /\ emitted codec kp config ledger request now w = [EvIsBlockhashValid bh]).
Proof.
  intros Hr Hmax. split; [apply checks_passed_count|]. split.
  - intros Hlt. apply (reaches_rejected _ _ _ _ _ _ _ _ _ _ Hr).
    destruct view as [ltx|vtx]; simpl in *.
    + apply legacy_too_many; [|assumption].
      intros E. rewrite E in Hlt. simpl in Hlt. lia.
    + now apply v0_too_many.
  - intros ltx -> Hn. apply (reaches_rejected _ _ _ _ _ _ _ _ _ _ Hr).
    simpl in *. apply legacy_no_signatures. now apply bool_decide_eq_true_1 in Hn.
Qed.

Lemma signature_count_bound_witness :
  (1 <= signature_count (V0View (v0_tx (publicKey custodial) 1 [zero_sig])) <= 2)
  /\ (sent (codec_of (v0_tx (publicKey custodial) 3 [zero_sig; user_signature; user_signature])
                     dummy_legacy)
           custodial (config_submit 2) ledger_ok (request_of wire) 0 empty_world
        = Sent (error_response "too many signatures")
      /\ emitted (codec_of (v0_tx (publicKey custodial) 3 [zero_sig; user_signature; user_signature])
                           dummy_legacy)
           custodial (config_submit 2) ledger_ok (request_of wire) 0 empty_world
        = [EvIsBlockhashValid "EkSnNWid2cvwEVnVx9aBqawnmiCNiDgp3gUdkDPTKN1N"])
  /\ (sent (codec_of (legacy_vtx (publicKey custodial) 0 []) (legacy_tx (publicKey custodial) []))
           custodial (config_submit 2) ledger_ok (request_of wire) 0 empty_world
        = Sent (error_response "no signatures")
      /\ emitted (codec_of (legacy_vtx (publicKey custodial) 0 []) (legacy_tx (publicKey custodial) []))
           custodial (config_submit 2) ledger_ok (request_of wire) 0 empty_world
        = [EvIsBlockhashValid "EkSnNWid2cvwEVnVx9aBqawnmiCNiDgp3gUdkDPTKN1N"]).
Proof.
  split; [|split].
  - apply (signature_count_bound
             (codec_of (v0_tx (publicKey custodial) 1 [zero_sig]) dummy_legacy)
             custodial (config_submit 2) ledger_ok (request_of wire) 0 empty_world
             "EkSnNWid2cvwEVnVx9aBqawnmiCNiDgp3gUdkDPTKN1N"
             (V0View (v0_tx (publicKey custodial) 1 [zero_sig])));
      [vm_compute; reflexivity | simpl; lia | reflexivity].
  - apply (signature_count_bound
             (codec_of (v0_tx (publicKey custodial) 3 [zero_sig; user_signature; user_signature])
                       dummy_legacy)
             custodial (config_submit 2) ledger_ok (request_of wire) 0 empty_world
             "EkSnNWid2cvwEVnVx9aBqawnmiCNiDgp3gUdkDPTKN1N"
             (V0View (v0_tx (publicKey custodial) 3 [zero_sig; user_signature; user_signature])));
      [vm_compute; reflexivity | simpl; lia | simpl; lia].
  - apply (signature_count_bound
             (codec_of (legacy_vtx (publicKey custodial) 0 []) (legacy_tx (publicKey custodial) []))
             custodial (config_submit 2) ledger_ok (request_of wire) 0 empty_world
             "EkSnNWid2cvwEVnVx9aBqawnmiCNiDgp3gUdkDPTKN1N"
             (LegacyView (legacy_tx (publicKey custodial) [])) ltac:(vm_compute; reflexivity)
             ltac:(simpl; lia)) with (legacyTx := legacy_tx (publicKey custodial) []);
      reflexivity.
Defined.

(** C6, as stated, fails: a versioned transaction declaring 3 signatures
    under [maxSignatures = 2] is answered "too many signatures" only after
    the handler has queried the RPC node for the blockhash. *)
Lemma too_many_signatures_after_network_call :
  sent (codec_of (v0_tx (publicKey custodial) 3 [zero_sig; user_signature; user_signature])
                 dummy_legacy)
       custodial (config_submit 2) ledger_ok (request_of wire) 0 empty_world
    = Sent (error_response "too many signatures")
  /\ existsb is_network
       (emitted (codec_of (v0_tx (publicKey custodial) 3 [zero_sig; user_signature; user_signature])
                          dummy_legacy)
                custodial (config_submit 2) ledger_ok (request_of wire) 0 empty_world)
     = true.
Proof. vm_compute. split; reflexivity. Qed.

(** ** The fee payer slot *)

Lemma legacy_primary_signed kp config legacyTx primary secondary sig :
  Transaction.signatures legacyTx = primary :: secondary ->
  Z.of_nat (length (Transaction.signatures legacyTx)) <= maxSignatures config ->
  SignaturePubkeyPair.publicKey primary = Some (publicKey kp) ->
  SignaturePubkeyPair.signature primary = Some sig ->
  legacy_check_signatures kp config legacyTx = Throw (JsError "invalid fee payer signature").
Proof.
  unfold legacy_check_signatures. intros E Hle Hk Hs. rewrite E in *.
  destruct (Z.gtb_spec (Z.of_nat (length (primary :: secondary))) (maxSignatures config)); [lia|].
  rewrite Hk. unfold equals. rewrite bool_decide_eq_true_2 by reflexivity. simpl.
  now rewrite Hs.
Qed.

Section V0Slots.

Context (config : Config) (vtx : VersionedTransaction.t) (firstSig : Bytes).

Let n := VersionedMessage.numRequiredSignatures (VersionedTransaction.message vtx).
Let slots := VersionedTransaction.signatures vtx.

Hypothesis count_bound : n <= maxSignatures config.
Hypothesis count_slots : Z.of_nat (length slots) = n.
Hypothesis first_slot : slots !! 0%nat = Some firstSig.

Lemma v0_after_count :
  v0_check_signatures config vtx =
    if n =? 1 then Ok tt
    else if negb (every_zero firstSig) then Throw (JsError "invalid fee payer signature")
    else if negb (forallb every_zero (drop 1 slots)) then v0_require_signed (drop 1 slots)
    else Ok tt.
Proof.
  unfold v0_check_signatures. fold n. fold slots.
  destruct (Z.gtb_spec n (maxSignatures config)); [lia|].
  rewrite count_slots, Z.eqb_refl. simpl. now rewrite first_slot.
Qed.

Lemma v0_single_signer : n = 1 -> v0_check_signatures config vtx = Ok tt.
Proof. intros H. rewrite v0_after_count, H. reflexivity. Qed.

Lemma v0_first_signed :
  n <> 1 -> every_zero firstSig = false ->
  v0_check_signatures config vtx = Throw (JsError "invalid fee payer signature").
Proof.
  intros Hn Hz. rewrite v0_after_count, Hz.
  destruct (Z.eqb_spec n 1); [contradiction|reflexivity].
Qed.

End V0Slots.

(** C4, as the code has it.  Versioned variant: a populated slot 0 is
    answered 400 "invalid fee payer signature" unless the declared count is
    1, in which case the slot is tolerated, whatever it holds, and the
    transaction is handed to the signer.  Legacy variant: a populated
    primary slot is answered 400 "invalid fee payer signature" whatever the
    number of slots. *)
Theorem fee_payer_slot codec kp config ledger request now w bh view :
  reaches_signature_checks codec kp ledger request now w = Some (bh, view) ->
  signature_count view <= maxSignatures config ->
  match view with
  | V0View vtx =>
      forall firstSig,
        Z.of_nat (length (VersionedTransaction.signatures vtx)) = signature_count view ->
        VersionedTransaction.signatures vtx !! 0%nat = Some firstSig ->
        (signature_count view <> 1 -> every_zero firstSig = false ->
           sent codec kp config ledger request now w
             = Sent (error_response "invalid fee payer signature")
           /\ emitted codec kp config ledger request now w = [EvIsBlockhashValid bh])
        /\ (signature_count view = 1 ->
              sent codec kp config ledger request now w
                = Sent (catch_all (outcome (v0_cosign codec kp config ledger request vtx)))
              /\ exists rest,
                  emitted codec kp config ledger request now w
                    = EvIsBlockhashValid bh :: EvSignV0 vtx :: rest)
  | LegacyView legacyTx =>
      forall primary secondary sig,
        Transaction.signatures legacyTx = primary :: secondary ->
        SignaturePubkeyPair.publicKey primary = Some (publicKey kp) ->
        SignaturePubkeyPair.signature primary = Some sig ->
        sent codec kp config ledger request now w
          = Sent (error_response "invalid fee payer signature")
        /\ emitted codec kp config ledger request now w = [EvIsBlockhashValid bh]
  end.
Proof.
  intros Hr Hle. destruct view as [ltx|vtx]; simpl in Hle.
  - intros primary secondary sig E Hk Hs.
    apply (reaches_rejected _ _ _ _ _ _ _ _ _ _ Hr). simpl.
    now apply (legacy_primary_signed _ _ _ primary secondary sig).
  - intros firstSig Hlen Hfirst. simpl in Hlen. split.
    + intros Hn Hz. apply (reaches_rejected _ _ _ _ _ _ _ _ _ _ Hr). simpl.
      now apply (v0_first_signed _ _ firstSig).
    + intros Hn.
      destruct (reaches_passed codec kp config ledger request now w bh (V0View vtx) Hr) as [Hs He].
      { simpl. now apply (v0_single_signer _ _ firstSig). }
      split; [exact Hs|]. rewrite He. simpl.
      unfold v0_cosign. pipe_unfold.
      destruct (versioned_sign codec kp vtx) as [signed|]; simpl; [|eauto].
      destruct (versioned_serialize codec signed); simpl; [|eauto].
      destruct (simulateTransaction ledger signed) as [[d|]|]; simpl; eauto.
      destruct (v0_signature codec signed); simpl; eauto.
      destruct (dispatch config ledger request a a0). simpl. eauto.
Qed.

Lemma fee_payer_slot_witness :
  (sent (codec_v0 2 [user_signature; user_signature]) custodial (config_submit 2) ledger_ok
        (request_of wire) 0 empty_world
     = Sent (error_response "invalid fee payer signature")
   /\ emitted (codec_v0 2 [user_signature; user_signature]) custodial (config_submit 2) ledger_ok
        (request_of wire) 0 empty_world
     = [EvIsBlockhashValid blockhash])
  /\ (sent (codec_v0 1 [user_signature]) custodial (config_submit 2) ledger_ok
           (request_of wire) 0 empty_world
        = Sent (catch_all (outcome (v0_cosign (codec_v0 1 [user_signature]) custodial
                                      (config_submit 2) ledger_ok (request_of wire)
                                      (v0_tx (publicKey custodial) 1 [user_signature]))))
      /\ exists rest,
          emitted (codec_v0 1 [user_signature]) custodial (config_submit 2) ledger_ok
                  (request_of wire) 0 empty_world
            = EvIsBlockhashValid blockhash
              :: EvSignV0 (v0_tx (publicKey custodial) 1 [user_signature]) :: rest)
  /\ (sent (codec_legacy [slot (Some user_signature) (publicKey custodial);
                          slot (Some user_signature) user])
           custodial (config_submit 2) ledger_ok (request_of wire) 0 empty_world
        = Sent (error_response "invalid fee payer signature")
      /\ emitted (codec_legacy [slot (Some user_signature) (publicKey custodial);
                                slot (Some user_signature) user])
           custodial (config_submit 2) ledger_ok (request_of wire) 0 empty_world
        = [EvIsBlockhashValid blockhash]).
Proof.
  split; [|split].
  - refine (proj1 (fee_payer_slot (codec_v0 2 [user_signature; user_signature]) custodial
                     (config_submit 2) ledger_ok (request_of wire) 0 empty_world blockhash
                     (V0View (v0_tx (publicKey custodial) 2 [user_signature; user_signature]))
                     _ _ user_signature _ _) _ _);
      try reflexivity; try (simpl; lia); try discriminate.
  - refine (proj2 (fee_payer_slot (codec_v0 1 [user_signature]) custodial
                     (config_submit 2) ledger_ok (request_of wire) 0 empty_world blockhash
                     (V0View (v0_tx (publicKey custodial) 1 [user_signature]))
                     _ _ user_signature _ _) _);
      try reflexivity; try (simpl; lia).
  - refine (fee_payer_slot
              (codec_legacy [slot (Some user_signature) (publicKey custodial);
                             slot (Some user_signature) user])
              custodial (config_submit 2) ledger_ok (request_of wire) 0 empty_world blockhash
              (LegacyView (legacy_tx (publicKey custodial)
                             [slot (Some user_signature) (publicKey custodial);
                              slot (Some user_signature) user]))
              _ _ _ _ user_signature _ _ _);
      try reflexivity; try (simpl; lia).
Defined.

(** C4, as stated, fails in the legacy variant: a legacy transaction with a
    single slot, already signed, is not tolerated but answered 400
    "invalid fee payer signature". *)
Lemma legacy_single_signer_presigned_rejected :
  signature_count
    (LegacyView (legacy_tx (publicKey custodial) [slot (Some user_signature) (publicKey custodial)]))
    = 1
  /\ reaches_signature_checks
       (codec_legacy [slot (Some user_signature) (publicKey custodial)])
       custodial ledger_ok (request_of wire) 0 empty_world
     = Some (blockhash,
             LegacyView (legacy_tx (publicKey custodial)
                           [slot (Some user_signature) (publicKey custodial)]))
  /\ sent (codec_legacy [slot (Some user_signature) (publicKey custodial)])
          custodial (config_submit 2) ledger_ok (request_of wire) 0 empty_world
     = Sent (error_response "invalid fee payer signature")
  /\ existsb is_sign
       (emitted (codec_legacy [slot (Some user_signature) (publicKey custodial)])
                custodial (config_submit 2) ledger_ok (request_of wire) 0 empty_world)
     = false.
Proof. vm_compute. repeat split; reflexivity. Qed.

(** ** The secondary slots *)

Lemma forallb_false_existsb {A} (f : A -> bool) (l : list A) :
  existsb (fun x => negb (f x)) l = true -> forallb f l = false.
Proof.
  induction l as [|x l IH]; simpl; [discriminate|].
  destruct (f x); simpl; auto.
Qed.

Lemma v0_require_signed_empty secondary :
  existsb every_zero secondary = true ->
  v0_require_signed secondary = Throw (JsError "missing required signature").
Proof.
  induction secondary as [|sig rest IH]; simpl; [discriminate|].
  destruct (every_zero sig); simpl; auto.
Qed.

Lemma legacy_require_signed_null secondary :
  legacy_keyed secondary = true ->
  existsb (fun sig => bool_decide (SignaturePubkeyPair.signature sig = None)) secondary = true ->
  legacy_require_signed secondary = Throw (JsError "missing signature").
Proof.
  unfold legacy_keyed.
  induction secondary as [|sig rest IH]; simpl; [discriminate|].
  intros Hk He. apply andb_prop in Hk as [Hk1 Hk2].
  apply bool_decide_eq_true_1 in Hk1 as [k Hk1]. rewrite Hk1.
  destruct (SignaturePubkeyPair.signature sig) eqn:Es; [|reflexivity].
  rewrite bool_decide_eq_false_2 in He by discriminate. simpl in He. auto.
Qed.

Lemma v0_mixed_rejected config vtx firstSig :
  VersionedMessage.numRequiredSignatures (VersionedTransaction.message vtx)
    <= maxSignatures config ->
  Z.of_nat (length (VersionedTransaction.signatures vtx))
    = VersionedMessage.numRequiredSignatures (VersionedTransaction.message vtx) ->
  VersionedTransaction.signatures vtx !! 0%nat = Some firstSig ->
  every_zero firstSig = true ->
  v0_mixed (drop 1 (VersionedTransaction.signatures vtx)) = true ->
  v0_check_signatures config vtx = Throw (JsError "missing required signature").
Proof.
  intros Hle Hlen Hfirst Hz Hm. apply andb_prop in Hm as [Hs He].
  rewrite (v0_after_count config vtx firstSig Hle Hlen Hfirst), Hz.
  rewrite (forallb_false_existsb _ _ Hs). simpl.
  destruct (Z.eqb_spec (VersionedMessage.numRequiredSignatures (VersionedTransaction.message vtx)) 1)
    as [E|_].
  - exfalso. rewrite E in Hlen.
    destruct (VersionedTransaction.signatures vtx) as [|a [|b l]]; simpl in *;
      try discriminate; lia.
  - now apply v0_require_signed_empty.
Qed.

Lemma legacy_mixed_rejected kp config legacyTx primary secondary :
  Transaction.signatures legacyTx = primary :: secondary ->
  Z.of_nat (length (Transaction.signatures legacyTx)) <= maxSignatures config ->
  SignaturePubkeyPair.publicKey primary = Some (publicKey kp) ->
  SignaturePubkeyPair.signature primary = None ->
  legacy_keyed secondary = true ->
  legacy_mixed secondary = true ->
  legacy_check_signatures kp config legacyTx = Throw (JsError "missing signature").
Proof.
  unfold legacy_check_signatures. intros E Hle Hk Hs Hkeys Hm. rewrite E in *.
  apply andb_prop in Hm as [Hsig Hnull].
  destruct (Z.gtb_spec (Z.of_nat (length (primary :: secondary))) (maxSignatures config)); [lia|].
  rewrite Hk. unfold equals. rewrite bool_decide_eq_true_2 by reflexivity. simpl.
  rewrite Hs, (forallb_false_existsb _ _ Hsig). simpl.
  now apply legacy_require_signed_null.
Qed.

(** C5, as the code has it.  A transaction whose fee payer slot is empty
    and whose secondary slots are mixed, some signed and some empty, is
    rejected before any signing: with 400 "missing required signature" in
    the versioned variant, and with 400 "missing signature" in the legacy
    variant (every secondary slot having its key). *)
Theorem mixed_secondary_rejected codec kp config ledger request now w bh view :
  reaches_signature_checks codec kp ledger request now w = Some (bh, view) ->
  signature_count view <= maxSignatures config ->
  match view with
  | V0View vtx =>
      forall firstSig,
        Z.of_nat (length (VersionedTransaction.signatures vtx)) = signature_count view ->
        VersionedTransaction.signatures vtx !! 0%nat = Some firstSig ->
        every_zero firstSig = true ->
        v0_mixed (drop 1 (VersionedTransaction.signatures vtx)) = true ->
        sent codec kp config ledger request now w
          = Sent (error_response "missing required signature")
        /\ emitted codec kp config ledger request now w = [EvIsBlockhashValid bh]
  | LegacyView legacyTx =>
      forall primary secondary,
        Transaction.signatures legacyTx = primary :: secondary ->
        SignaturePubkeyPair.publicKey primary = Some (publicKey kp) ->
        SignaturePubkeyPair.signature primary = None ->
        legacy_keyed secondary = true ->
        legacy_mixed secondary = true ->
        sent codec kp config ledger request now w = Sent (error_response "missing signature")
        /\ emitted codec kp config ledger request now w = [EvIsBlockhashValid bh]
  end.
Proof.
  intros Hr Hle. destruct view as [ltx|vtx]; simpl in Hle.
  - intros primary secondary E Hk Hs Hkeys Hm.
    apply (reaches_rejected _ _ _ _ _ _ _ _ _ _ Hr). simpl.
    now apply (legacy_mixed_rejected _ _ _ primary secondary).
  - intros firstSig Hlen Hfirst Hz Hm. simpl in Hlen.
    apply (reaches_rejected _ _ _ _ _ _ _ _ _ _ Hr). simpl.
    now apply (v0_mixed_rejected _ _ firstSig).
Qed.

Lemma mixed_secondary_rejected_witness :
  (sent (codec_v0 3 [zero_sig; user_signature; zero_sig]) custodial (config_submit 3) ledger_ok
        (request_of wire) 0 empty_world
     = Sent (error_response "missing required signature")
   /\ emitted (codec_v0 3 [zero_sig; user_signature; zero_sig]) custodial (config_submit 3)
        ledger_ok (request_of wire) 0 empty_world
     = [EvIsBlockhashValid blockhash])
  /\ (sent (codec_legacy [slot None (publicKey custodial); slot (Some user_signature) user;
                         slot None other_user])
           custodial (config_submit 3) ledger_ok (request_of wire) 0 empty_world
        = Sent (error_response "missing signature")
      /\ emitted (codec_legacy [slot None (publicKey custodial); slot (Some user_signature) user;
                               slot None other_user])
           custodial (config_submit 3) ledger_ok (request_of wire) 0 empty_world
        = [EvIsBlockhashValid blockhash]).
Proof.
  split.
  - refine (mixed_secondary_rejected (codec_v0 3 [zero_sig; user_signature; zero_sig]) custodial
              (config_submit 3) ledger_ok (request_of wire) 0 empty_world blockhash
              (V0View (v0_tx (publicKey custodial) 3 [zero_sig; user_signature; zero_sig]))
              _ _ zero_sig _ _ _ _);
      try reflexivity; simpl; lia.
  - refine (mixed_secondary_rejected
              (codec_legacy [slot None (publicKey custodial); slot (Some user_signature) user;
                             slot None other_user])
              custodial (config_submit 3) ledger_ok (request_of wire) 0 empty_world blockhash
              (LegacyView (legacy_tx (publicKey custodial)
                             [slot None (publicKey custodial); slot (Some user_signature) user;
                              slot None other_user]))
              _ _ _ _ _ _ _ _ _);
      try reflexivity; simpl; lia.
Defined.

(** C5, as stated, fails in the legacy variant: the mixed state is answered
    "missing signature", not "missing required signature". *)
Lemma legacy_mixed_message :
  legacy_mixed [slot (Some user_signature) user; slot None other_user] = true
  /\ sent (codec_legacy [slot None (publicKey custodial); slot (Some user_signature) user;
                        slot None other_user])
          custodial (config_submit 3) ledger_ok (request_of wire) 0 empty_world
     = Sent (error_response "missing signature")
  /\ sent (codec_legacy [slot None (publicKey custodial); slot (Some user_signature) user;
                        slot None other_user])
          custodial (config_submit 3) ledger_ok (request_of wire) 0 empty_world
     <> Sent (error_response "missing required signature").
Proof. vm_compute. repeat split; try reflexivity. discriminate. Qed.

(** ** Simulation before submission *)

Lemma simulation_report_simulate ledger e r :
  simulation_report ledger e = Some r -> is_simulate e = true.
Proof. destruct e; simpl; congruence. Qed.

Lemma guarded_silent codec ledger evs r :
  existsb is_submit evs = false -> existsb is_simulate evs = false ->
  Guarded codec ledger (evs, r).
Proof.
  intros Hs Hm. left. split; [exact Hs|]. simpl. intros sim d Hin Hrep.
  apply simulation_report_simulate in Hrep.
  assert (existsb is_simulate evs = true) by (apply existsb_exists; eauto).
  congruence.
Qed.

Lemma guarded_cons codec ledger e evs r :
  is_submit e = false -> is_simulate e = false ->
  Guarded codec ledger (evs, r) -> Guarded codec ledger (e :: evs, r).
Proof.
  intros Hs Hm [[Hn Herr] | (earlier & sign & sim & raw & E & H1 & H2 & H3 & H4 & H5)].
  - left. simpl in *. rewrite Hs. split; [exact Hn|].
    intros sim d [<-|Hin] Hrep; [|eauto].
    apply simulation_report_simulate in Hrep. congruence.
  - right. exists (e :: earlier), sign, sim, raw. simpl in *. rewrite E, Hs, Hm. auto 10.
Qed.

Lemma guarded_dispatch_after codec config ledger request pre sign sim raw signature :
  is_sign sign = true -> simulates codec sim raw ->
  simulation_report ledger sim = Some (Ok None) ->
  existsb is_submit pre = false -> existsb is_simulate pre = false ->
  Guarded codec ledger
    (pre ++ [sign; sim] ++ events (dispatch config ledger request raw signature),
     outcome (dispatch config ledger request raw signature)).
Proof.
  intros Hsign Hsim Hrep Hs Hm. unfold dispatch.
  assert (Hquiet : forall tail r,
             existsb is_submit tail = false -> existsb is_simulate tail = false ->
             Guarded codec ledger (pre ++ [sign; sim] ++ tail, r)).
  { intros tail r Ht1 Ht2. left. simpl. split.
    - rewrite existsb_app, Hs. simpl. rewrite Ht1.
      destruct sign; try discriminate; destruct sim; simpl in *; try contradiction; reflexivity.
    - intros s d Hin Hr. exfalso. apply in_app_or in Hin as [Hin|[E|[E|Hin]]].
      + apply simulation_report_simulate in Hr.
        assert (existsb is_simulate pre = true) by (apply existsb_exists; eauto). congruence.
      + subst s. destruct sign; simpl in *; discriminate.
      + subst s. congruence.
      + apply simulation_report_simulate in Hr.
        assert (existsb is_simulate tail = true) by (apply existsb_exists; eauto). congruence. }
  destruct (returnSignature config) as [[|minScore]|]; pipe_unfold; simpl.
  - apply Hquiet; reflexivity.
  - destruct (scoreChallenge ledger request minScore) as [[|]|]; simpl; apply Hquiet; reflexivity.
  - destruct (sendAndConfirmRawTransaction ledger raw); simpl;
      right; exists pre, sign, sim, raw; auto 10.
Qed.

Lemma guarded_legacy_cosign codec kp config ledger request legacyTx :
  Guarded codec ledger (legacy_cosign codec kp config ledger request legacyTx).
Proof.
  unfold legacy_cosign, simulateRawTransaction. pipe_unfold.
  destruct (validateInstructions ledger legacyTx); [|now apply guarded_silent].
  simpl. destruct (partialSign codec kp legacyTx) as [signed|]; [|now apply guarded_silent].
  simpl. destruct (transaction_serialize codec signed) as [raw|]; [|now apply guarded_silent].
  simpl. destruct (simulate_raw ledger raw) as [[d|]|] eqn:Esim; simpl.
  - left. split; [reflexivity|]. simpl.
    intros sim d' [<-|[<-|[<-|[]]]]; simpl; try discriminate. congruence.
  - destruct (legacy_signature codec signed) as [signature|] eqn:Esig; simpl.
    + pose proof (guarded_dispatch_after codec config ledger request
                    [EvValidateInstructions] (EvSignLegacy legacyTx) (EvSimulateRaw raw)
                    raw signature) as H.
      destruct (dispatch config ledger request raw signature) as [evs r]. simpl in *.
      apply H; auto; now rewrite Esim.
    + left. split; [reflexivity|]. simpl.
      intros sim d' [<-|[<-|[<-|[]]]]; simpl; try discriminate. congruence.
  - left. split; [reflexivity|]. simpl.
    intros sim d' [<-|[<-|[<-|[]]]]; simpl; try discriminate. congruence.
Qed.

Lemma guarded_v0_cosign codec kp config ledger request vtx :
  Guarded codec ledger (v0_cosign codec kp config ledger request vtx).
Proof.
  unfold v0_cosign. pipe_unfold.
  destruct (versioned_sign codec kp vtx) as [signed|]; [|now apply guarded_silent].
  simpl. destruct (versioned_serialize codec signed) as [raw|] eqn:Eraw;
    [|now apply guarded_silent].
  simpl. destruct (simulateTransaction ledger signed) as [[d|]|] eqn:Esim; simpl.
  - left. split; [reflexivity|]. simpl.
    intros sim d' [<-|[<-|[]]]; simpl; try discriminate. congruence.
  - destruct (v0_signature codec signed) as [signature|] eqn:Esig; simpl.
    + pose proof (guarded_dispatch_after codec config ledger request
                    [] (EvSignV0 vtx) (EvSimulateV0 signed) raw signature) as H.
      destruct (dispatch config ledger request raw signature) as [evs r]. simpl in *.
      apply H; auto; now rewrite Esim.
    + left. split; [reflexivity|]. simpl.
      intros sim d' [<-|[<-|[]]]; simpl; try discriminate. congruence.
  - left. split; [reflexivity|]. simpl.
    intros sim d' [<-|[<-|[]]]; simpl; try discriminate. congruence.
Qed.

Lemma guarded_locked codec kp config ledger request buffer vtx :
  Guarded codec ledger (sponsor_locked codec kp config ledger request buffer vtx).
Proof.
  unfold sponsor_locked. destruct (VersionedTransaction.version vtx).
  - unfold sponsor_legacy. pipe_unfold.
    destruct (transaction_from codec buffer) as [ltx|]; [|now apply guarded_silent].
    simpl. destruct (negb _); [now apply guarded_silent|].
    destruct (truthy_blockhash _) as [bh|]; [|now apply guarded_silent].
    destruct (isBlockhashValid ledger bh) as [[|]|]; simpl; try now apply guarded_silent.
    destruct (legacy_check_signatures kp config ltx); simpl; [|now apply guarded_silent].
    pose proof (guarded_legacy_cosign codec kp config ledger request ltx) as H.
    destruct (legacy_cosign codec kp config ledger request ltx) as [evs r].
    now apply guarded_cons.
  - unfold sponsor_v0. pipe_unfold.
    destruct (_ !! 0%nat) as [k|]; [|now apply guarded_silent].
    destruct (negb _); [now apply guarded_silent|].
    destruct (bool_decide _); [now apply guarded_silent|].
    destruct (isBlockhashValid ledger _) as [[|]|]; simpl; try now apply guarded_silent.
    destruct (v0_check_signatures config vtx); simpl; [|now apply guarded_silent].
    pose proof (guarded_v0_cosign codec kp config ledger request vtx) as H.
    destruct (v0_cosign codec kp config ledger request vtx) as [evs r].
    now apply guarded_cons.
Qed.

Lemma first_submit_unique pre raw0 before raw rest :
  existsb is_submit pre = false ->
  pre ++ [EvSubmit raw0] = before ++ EvSubmit raw :: rest ->
  before = pre /\ raw = raw0 /\ rest = [].
Proof.
  revert before. induction pre as [|e pre IH]; intros before Hs E.
  - destruct before as [|b before]; simpl in E.
    + injection E as <- <-. auto.
    + injection E as _ E. destruct before; discriminate.
  - simpl in Hs. apply orb_false_elim in Hs as [He Hs].
    destruct before as [|b before]; simpl in E.
    + injection E as -> _. discriminate.
    + injection E as <- E. destruct (IH _ Hs E) as (-> & -> & ->). auto.
Qed.

Lemma no_submit_no_split evs before raw rest :
  existsb is_submit evs = false -> evs <> before ++ EvSubmit raw :: rest.
Proof.
  intros Hs ->. rewrite existsb_app in Hs. simpl in Hs.
  now rewrite orb_true_r in Hs.
Qed.

(** The run of any request is guarded. *)
Lemma guarded_run codec kp config ledger request now w :
  exists p,
    Guarded codec ledger p
    /\ emitted codec kp config ledger request now w = events p
    /\ (events p <> [] ->
        sent codec kp config ledger request now w = Sent (catch_all (outcome p))).
Proof.
  destruct (admitted codec request now w) as [[buffer vtx]|] eqn:Ha.
  - exists (sponsor_locked codec kp config ledger request buffer vtx).
    split; [apply guarded_locked|].
    rewrite (emitted_admitted _ _ _ _ _ _ _ _ _ Ha), (sent_admitted _ _ _ _ _ _ _ _ _ Ha). auto.
  - exists ([], Throw JsOther). split; [now apply guarded_silent|].
    rewrite (emitted_not_admitted _ _ _ _ _ _ _ Ha). simpl. split; [reflexivity|congruence].
Qed.

(** ** The answers of the handler *)

Lemma catch_all_throw e : exists message, catch_all (Throw e) = error_response message.
Proof. destruct e; simpl; eauto. Qed.

(** Whatever the handler sends is either a 400 with a message, or the
    answer of the co-signing stage of a request that passed every check. *)
Lemma sent_cases codec kp config ledger request now w :
  (exists e, sent codec kp config ledger request now w = Unhandled e)
  \/ (exists message,
        sent codec kp config ledger request now w = Sent (error_response message))
  \/ (exists bh view response,
        reaches_signature_checks codec kp ledger request now w = Some (bh, view)
        /\ check_signatures kp config view = Ok tt
        /\ outcome (cosign codec kp config ledger request view) = Ok response
        /\ sent codec kp config ledger request now w = Sent response).
Proof.
  destruct (reaches_signature_checks codec kp ledger request now w) as [[bh view]|] eqn:Hr.
  - pose proof (reaches_run codec kp config ledger request now w bh view Hr) as H.
    destruct (check_signatures kp config view) as [[]|e] eqn:Hc.
    + destruct H as [Hs _].
      destruct (outcome (cosign codec kp config ledger request view)) as [r|e] eqn:Ho.
      * right; right. exists bh, view, r. auto.
      * right; left. destruct (catch_all_throw e) as [m Hm]. exists m. now rewrite Hs, Hm.
    + right; left. destruct H as [Hs _]. destruct (catch_all_throw e) as [m Hm].
      exists m. now rewrite Hs, Hm.
  - unfold reaches_signature_checks in Hr.
    destruct (admitted codec request now w) as [[buffer vtx]|] eqn:Ha.
    + right; left. rewrite (sent_admitted _ _ _ _ _ _ _ _ _ Ha).
      cut (exists message,
              catch_all (outcome (sponsor_locked codec kp config ledger request buffer vtx))
              = error_response message).
      { intros [m Hm]. exists m. now rewrite Hm. }
      unfold sponsor_locked.
      destruct (VersionedTransaction.version vtx).
      * unfold legacy_fresh in Hr. unfold sponsor_legacy. pipe_unfold.
        destruct (transaction_from codec buffer) as [ltx|e]; [|apply catch_all_throw].
        simpl. destruct (from_option _ _ _); simpl; [|eexists; reflexivity].
        destruct (truthy_blockhash _) as [b|]; [|eexists; reflexivity].
        destruct (isBlockhashValid ledger b) as [[|]|e]; simpl;
          [discriminate | eexists; reflexivity | apply catch_all_throw].
      * unfold v0_fresh in Hr. unfold sponsor_v0.
        destruct (_ !! 0%nat) as [k|]; [|eexists; reflexivity].
        destruct (equals k (publicKey kp)); simpl; [|eexists; reflexivity].
        destruct (bool_decide _); [eexists; reflexivity|]. pipe_unfold.
        destruct (isBlockhashValid ledger _) as [[|]|e]; simpl;
          [discriminate | eexists; reflexivity | apply catch_all_throw].
    + unfold admitted, decode_request in Ha. unfold sent, sponsor.
      destruct (body_transaction request); try (right; left; eexists; reflexivity).
      destruct (base58_decode codec s); [|left; eexists; reflexivity].
      destruct (deserialize codec a) as [v|[m|]]; try (right; left; eexists; reflexivity).
      destruct (cache_get _ _ _); [right; left; eexists; reflexivity|discriminate].
Qed.

(** The co-signing stage answers what [dispatch] answers, about the
    identifier of the co-signed transaction. *)
Lemma cosign_ok codec kp config ledger request view response :
  outcome (cosign codec kp config ledger request view) = Ok response ->
  exists raw signature,
    cosigned_signature codec kp view = Ok signature
    /\ outcome (dispatch config ledger request raw signature) = Ok response.
Proof.
  destruct view as [ltx|vtx]; simpl.
  - unfold legacy_cosign, simulateRawTransaction. pipe_unfold.
    destruct (validateInstructions ledger ltx); [|discriminate]. simpl.
    destruct (partialSign codec kp ltx) as [signed|]; [|discriminate]. simpl.
    destruct (transaction_serialize codec signed) as [raw|]; [|discriminate]. simpl.
    destruct (simulate_raw ledger raw) as [[d|]|]; try discriminate. simpl.
    destruct (legacy_signature codec signed) as [s|]; [|discriminate]. simpl.
    destruct (dispatch config ledger request raw s) as [evs r] eqn:Ed. simpl.
    intros ->. exists raw, s. now rewrite Ed.
  - unfold v0_cosign. pipe_unfold.
    destruct (versioned_sign codec kp vtx) as [signed|]; [|discriminate]. simpl.
    destruct (versioned_serialize codec signed) as [raw|]; [|discriminate]. simpl.
    destruct (simulateTransaction ledger signed) as [[d|]|]; try discriminate. simpl.
    destruct (v0_signature codec signed) as [s|]; [|discriminate]. simpl.
    destruct (dispatch config ledger request raw s) as [evs r] eqn:Ed. simpl.
    intros ->. exists raw, s. now rewrite Ed.
Qed.

Lemma dispatch_shape config ledger request raw signature response :
  outcome (dispatch config ledger request raw signature) = Ok response ->
  response = ok_response signature \/ response = error_response "anti-spam check failed".
Proof.
  unfold dispatch, isReturnedSignatureAllowed. pipe_unfold.
  destruct (returnSignature config) as [[|minScore]|]; simpl.
  - intros [= <-]. auto.
  - destruct (scoreChallenge ledger request minScore) as [[|]|]; simpl;
      try discriminate; intros [= <-]; auto.
  - destruct (sendAndConfirmRawTransaction ledger raw); simpl;
      try discriminate; intros [= <-]; auto.
Qed.

Lemma dispatch_allowAll config ledger request raw signature :
  returnSignature config = Some AllowAll ->
  dispatch config ledger request raw signature = ([], Ok (ok_response signature)).
Proof. unfold dispatch. now intros ->. Qed.

Lemma dispatch_no_submit config ledger request raw signature :
  returnSignature config <> None ->
  existsb is_submit (events (dispatch config ledger request raw signature)) = false.
Proof.
  unfold dispatch, isReturnedSignatureAllowed. pipe_unfold.
  destruct (returnSignature config) as [[|minScore]|]; [| |congruence]; intros _.
  - reflexivity.
  - destruct (scoreChallenge ledger request minScore) as [[|]|]; reflexivity.
Qed.

(** What [dispatch] calls is the anti-abuse check or the submission of the
    bytes it was given. *)
Lemma dispatch_events config ledger request raw signature e :
  In e (events (dispatch config ledger request raw signature)) ->
  e = EvAntiSpam \/ e = EvSubmit raw.
Proof.
  unfold dispatch, isReturnedSignatureAllowed. pipe_unfold.
  destruct (returnSignature config) as [[|minScore]|]; simpl.
  - intros [].
  - destruct (scoreChallenge ledger request minScore) as [[|]|]; simpl; intros [<-|[]]; auto.
  - destruct (sendAndConfirmRawTransaction ledger raw); simpl; intros [<-|[]]; auto.
Qed.

(** A 200 of [dispatch] carries the signature it was given, and is sent
    only once the return gate has allowed it or the submission is
    confirmed. *)
Lemma dispatch_released config ledger request raw signature response :
  outcome (dispatch config ledger request raw signature) = Ok response ->
  statusCode response = 200 ->
  released config ledger request raw /\ response = ok_response signature.
Proof.
  unfold dispatch, released, isReturnedSignatureAllowed. pipe_unfold.
  destruct (returnSignature config) as [[|minScore]|]; simpl.
  - intros [= <-] _. auto.
  - destruct (scoreChallenge ledger request minScore) as [[|]|]; simpl;
      try discriminate; intros [= <-]; [auto | discriminate].
  - destruct (sendAndConfirmRawTransaction ledger raw) as [[]|]; simpl;
      try discriminate; intros [= <-] _; auto.
Qed.

(** Once the instruction check has passed and the signing has given the
    wire bytes, the co-signing stage signs, then dry-runs what it signed,
    whatever the configuration; what follows is the anti-abuse check or
    the submission of the simulated bytes, and nothing follows a dry run
    that did not come back without error. *)
Lemma cosign_simulated codec kp config ledger request view sim raw :
  policy_passed ledger view ->
  signed_wire codec kp view = Ok (sim, raw) ->
  simulates codec sim raw
  /\ exists rest,
       events (cosign codec kp config ledger request view)
       = policy_events view ++ [sign_event view; sim] ++ rest
       /\ (forall e, In e rest -> e = EvAntiSpam \/ e = EvSubmit raw)
       /\ (simulation_report ledger sim <> Some (Ok None) -> rest = []).
Proof.
  destruct view as [ltx|vtx]; simpl.
  - intros Hp. unfold legacy_cosign, simulateRawTransaction. pipe_unfold. rewrite Hp. simpl.
    destruct (partialSign codec kp ltx) as [signed|]; [|discriminate]. simpl.
    destruct (transaction_serialize codec signed) as [raw'|]; [|discriminate].
    intros [= <- <-]. simpl. split; [reflexivity|].
    destruct (simulate_raw ledger raw') as [[d|]|] eqn:Esim; simpl;
      try (exists []; split; [reflexivity|]; split; [intros ? []|reflexivity]).
    destruct (legacy_signature codec signed) as [s|]; simpl;
      [|exists []; split; [reflexivity|]; split; [intros ? []|reflexivity]].
    pose proof (dispatch_events config ledger request raw' s) as Hd.
    destruct (dispatch config ledger request raw' s) as [evs r]. simpl in *.
    exists evs. split; [reflexivity|]. split; [exact Hd|]. congruence.
  - intros _. unfold v0_cosign. pipe_unfold.
    destruct (versioned_sign codec kp vtx) as [signed|]; [|discriminate]. simpl.
    destruct (versioned_serialize codec signed) as [raw'|] eqn:Eraw; [|discriminate].
    intros [= <- <-]. simpl. split; [exact Eraw|].
    destruct (simulateTransaction ledger signed) as [[d|]|] eqn:Esim; simpl;
      try (exists []; split; [reflexivity|]; split; [intros ? []|reflexivity]).
    destruct (v0_signature codec signed) as [s|]; simpl;
      [|exists []; split; [reflexivity|]; split; [intros ? []|reflexivity]].
    pose proof (dispatch_events config ledger request raw' s) as Hd.
    destruct (dispatch config ledger request raw' s) as [evs r]. simpl in *.
    exists evs. split; [reflexivity|]. split; [exact Hd|]. congruence.
Qed.

(** A co-signing stage that ends with an answer has passed the instruction
    check, signed, dry-run what it signed without error, and answers what
    [dispatch] answers about the signed bytes. *)
Lemma cosign_answers codec kp config ledger request view response :
  outcome (cosign codec kp config ledger request view) = Ok response ->
  exists sim raw signature,
    policy_passed ledger view
    /\ signed_wire codec kp view = Ok (sim, raw)
    /\ simulates codec sim raw
    /\ simulation_report ledger sim = Some (Ok None)
    /\ cosigned_signature codec kp view = Ok signature
    /\ events (cosign codec kp config ledger request view)
       = policy_events view ++ [sign_event view; sim]
         ++ events (dispatch config ledger request raw signature)
    /\ outcome (dispatch config ledger request raw signature) = Ok response.
Proof.
  destruct view as [ltx|vtx]; simpl.
  - unfold legacy_cosign, simulateRawTransaction. pipe_unfold.
    destruct (validateInstructions ledger ltx) as [[]|]; [|discriminate]. simpl.
    destruct (partialSign codec kp ltx) as [signed|]; [|discriminate]. simpl.
    destruct (transaction_serialize codec signed) as [raw|]; [|discriminate]. simpl.
    destruct (simulate_raw ledger raw) as [[d|]|] eqn:Esim; try discriminate. simpl.
    destruct (legacy_signature codec signed) as [s|]; [|discriminate]. simpl.
    destruct (dispatch config ledger request raw s) as [evs r] eqn:Ed. simpl.
    intros ->. exists (EvSimulateRaw raw), raw, s. rewrite Ed. simpl. rewrite Esim. auto 10.
  - unfold v0_cosign. pipe_unfold.
    destruct (versioned_sign codec kp vtx) as [signed|]; [|discriminate]. simpl.
    destruct (versioned_serialize codec signed) as [raw|] eqn:Eraw; [|discriminate]. simpl.
    destruct (simulateTransaction ledger signed) as [[d|]|] eqn:Esim; try discriminate. simpl.
    destruct (v0_signature codec signed) as [s|]; [|discriminate]. simpl.
    destruct (dispatch config ledger request raw s) as [evs r] eqn:Ed. simpl.
    intros ->. exists (EvSimulateV0 signed), raw, s. rewrite Ed. simpl. rewrite Esim. auto 10.
Qed.

Lemma policy_events_quiet view :
  existsb is_submit (policy_events view) = false
  /\ existsb is_simulate (policy_events view) = false.
Proof. now destruct view. Qed.

(** C3. Whatever the request and the configuration.  A request that
    passes the signature checks and the instruction check, and whose
    transaction the custodial key signs, has that signed transaction
    dry-run right after the signing, whether the signature is to be
    returned or the transaction submitted; after the dry run come at most
    the anti-abuse check or the submission of the simulated bytes, and
    nothing when the dry run did not come back without error.  A
    submission is immediately preceded by the signing and by a dry run of
    the submitted bytes that reported no error.  When a dry run reports an
    error the request is answered 400 "simulation failed: <details>" and
    nothing is submitted.  No 200 is answered without a dry run of the
    signed transaction that reported no error. *)
Theorem simulation_guards_submission codec kp config ledger request now w :
  (forall bh view sim raw,
     reaches_signature_checks codec kp ledger request now w = Some (bh, view) ->
     check_signatures kp config view = Ok tt ->
     policy_passed ledger view ->
     signed_wire codec kp view = Ok (sim, raw) ->
     simulates codec sim raw
     /\ exists rest,
          emitted codec kp config ledger request now w
          = EvIsBlockhashValid bh :: policy_events view ++ [sign_event view; sim] ++ rest
          /\ (forall e, In e rest -> e = EvAntiSpam \/ e = EvSubmit raw)
          /\ (simulation_report ledger sim <> Some (Ok None) -> rest = []))
  /\ (forall before raw rest,
        emitted codec kp config ledger request now w = before ++ EvSubmit raw :: rest ->
        exists earlier sign sim,
          before = earlier ++ [sign; sim]
          /\ is_sign sign = true
          /\ simulates codec sim raw
          /\ simulation_report ledger sim = Some (Ok None))
  /\ (forall sim details,
        In sim (emitted codec kp config ledger request now w) ->
        simulation_report ledger sim = Some (Ok (Some details)) ->
        sent codec kp config ledger request now w
          = Sent (error_response ("simulation failed: " +:+ details))
        /\ existsb is_submit (emitted codec kp config ledger request now w) = false)
  /\ (forall response,
        sent codec kp config ledger request now w = Sent response ->
        statusCode response = 200 ->
        exists earlier sign sim raw rest,
          emitted codec kp config ledger request now w = earlier ++ [sign; sim] ++ rest
          /\ is_sign sign = true
          /\ simulates codec sim raw
          /\ simulation_report ledger sim = Some (Ok None)
          /\ existsb is_submit earlier = false
          /\ existsb is_simulate earlier = false).
Proof.
  split; [|split; [|split]].
  - intros bh view sim raw Hr Hc Hp Hw.
    destruct (reaches_passed codec kp config ledger request now w bh view Hr Hc) as [_ He].
    destruct (cosign_simulated codec kp config ledger request view sim raw Hp Hw)
      as (Hsim & rest & E & Hrest & Hstop).
    split; [exact Hsim|]. exists rest. rewrite He, E. auto.
  - destruct (guarded_run codec kp config ledger request now w) as (p & Hg & He & Hs).
    rewrite He.
    destruct Hg as [[Hn Herr] | (earlier & sign & sim & raw & E & H1 & H2 & H3 & H4 & H5)].
    + intros before raw rest Hsplit. exfalso.
      now apply (no_submit_no_split _ before raw rest Hn).
    + intros before raw' rest Hsplit. rewrite E in Hsplit.
      change (earlier ++ [sign; sim; EvSubmit raw])
        with (earlier ++ [sign; sim] ++ [EvSubmit raw]) in Hsplit.
      rewrite app_assoc in Hsplit.
      apply first_submit_unique in Hsplit as (-> & -> & ->).
      * exists earlier, sign, sim. auto.
      * rewrite existsb_app, H4. simpl.
        destruct sign; try discriminate; destruct sim; simpl in *; try contradiction; reflexivity.
  - destruct (guarded_run codec kp config ledger request now w) as (p & Hg & He & Hs).
    rewrite He.
    destruct Hg as [[Hn Herr] | (earlier & sign & sim & raw & E & H1 & H2 & H3 & H4 & H5)].
    + intros sim d Hin Hrep. split; [|exact Hn].
      rewrite Hs by (intros Hnil; rewrite Hnil in Hin; exact Hin).
      now rewrite (Herr sim d Hin Hrep).
    + intros s d Hin Hrep. exfalso. rewrite E in Hin.
      apply in_app_or in Hin as [Hin|[Eq|[Eq|[Eq|[]]]]]; subst.
      * apply simulation_report_simulate in Hrep.
        assert (existsb is_simulate earlier = true) by (apply existsb_exists; eauto).
        congruence.
      * destruct s; simpl in *; discriminate.
      * congruence.
      * discriminate.
  - intros response Hs H200.
    destruct (sent_cases codec kp config ledger request now w)
      as [[e He] | [[m Hm] | (bh & view & r & Hr & Hk & Ho & Hsent)]].
    + congruence.
    + rewrite Hs in Hm. injection Hm as ->. discriminate.
    + destruct (reaches_passed codec kp config ledger request now w bh view Hr Hk) as [_ He].
      destruct (cosign_answers _ _ _ _ _ _ _ Ho)
        as (sim & raw & s & _ & _ & Hsim & Hrep & _ & E & _).
      destruct (policy_events_quiet view) as [Hq1 Hq2].
      exists (EvIsBlockhashValid bh :: policy_events view), (sign_event view), sim, raw,
        (events (dispatch config ledger request raw s)).
      rewrite He, E. simpl. split; [reflexivity|]. split; [now destruct view|]. auto.
Qed.

Lemma simulation_guards_submission_witness :
  (simulates (codec_v0 1 [zero_sig])
     (EvSimulateV0 (v0_tx (publicKey custodial) 1 [service_signature])) [7; 7; 7; 7; 2; 0; 1]
   /\ exists rest,
        emitted (codec_v0 1 [zero_sig]) custodial (config_allowAll 2) ledger_ok
          (request_of wire) 0 empty_world
        = EvIsBlockhashValid blockhash
          :: policy_events (V0View (v0_tx (publicKey custodial) 1 [zero_sig]))
             ++ [sign_event (V0View (v0_tx (publicKey custodial) 1 [zero_sig]));
                 EvSimulateV0 (v0_tx (publicKey custodial) 1 [service_signature])]
             ++ rest
        /\ (forall e, In e rest -> e = EvAntiSpam \/ e = EvSubmit [7; 7; 7; 7; 2; 0; 1])
        /\ (simulation_report ledger_ok
              (EvSimulateV0 (v0_tx (publicKey custodial) 1 [service_signature]))
            <> Some (Ok None) -> rest = []))
  /\ (exists earlier sign sim,
        [EvIsBlockhashValid blockhash;
         EvSignV0 (v0_tx (publicKey custodial) 1 [zero_sig]);
         EvSimulateV0 (v0_tx (publicKey custodial) 1 [service_signature])]
          = earlier ++ [sign; sim]
        /\ is_sign sign = true
        /\ simulates (codec_v0 1 [zero_sig]) sim [7; 7; 7; 7; 2; 0; 1]
        /\ simulation_report ledger_ok sim = Some (Ok None))
  /\ (sent (codec_v0 1 [zero_sig]) custodial (config_submit 2) ledger_sim_err
           (request_of wire) 0 empty_world
        = Sent (error_response "simulation failed: {InstructionError:[0,Custom]}")
      /\ existsb is_submit
           (emitted (codec_v0 1 [zero_sig]) custodial (config_submit 2) ledger_sim_err
                    (request_of wire) 0 empty_world)
         = false)
  /\ (exists earlier sign sim raw rest,
        emitted (codec_legacy [slot None (publicKey custodial)]) custodial (config_allowAll 2)
          ledger_ok (request_of wire) 0 empty_world
        = earlier ++ [sign; sim] ++ rest
        /\ is_sign sign = true
        /\ simulates (codec_legacy [slot None (publicKey custodial)]) sim raw
        /\ simulation_report ledger_ok sim = Some (Ok None)
        /\ existsb is_submit earlier = false
        /\ existsb is_simulate earlier = false).
Proof.
  split; [|split; [|split]].
  - apply (proj1 (simulation_guards_submission (codec_v0 1 [zero_sig]) custodial
                    (config_allowAll 2) ledger_ok (request_of wire) 0 empty_world)
             blockhash (V0View (v0_tx (publicKey custodial) 1 [zero_sig])));
      vm_compute; auto.
  - apply (proj1 (proj2 (simulation_guards_submission (codec_v0 1 [zero_sig]) custodial
                           (config_submit 2) ledger_ok (request_of wire) 0 empty_world))
             _ _ []).
    vm_compute. reflexivity.
  - apply (proj1 (proj2 (proj2 (simulation_guards_submission (codec_v0 1 [zero_sig]) custodial
                                  (config_submit 2) ledger_sim_err (request_of wire) 0
                                  empty_world)))
             (EvSimulateV0 (v0_tx (publicKey custodial) 1 [service_signature]))
             "{InstructionError:[0,Custom]}").
    + vm_compute. auto.
    + reflexivity.
  - apply (proj2 (proj2 (proj2 (simulation_guards_submission
                                  (codec_legacy [slot None (publicKey custodial)]) custodial
                                  (config_allowAll 2) ledger_ok (request_of wire) 0
                                  empty_world)))
             (ok_response "BRGsx")).
    + vm_compute. reflexivity.
    + reflexivity.
Defined.

(** ** Returning the signature *)

Lemma cosign_no_submit codec kp config ledger request view :
  returnSignature config <> None ->
  existsb is_submit (events (cosign codec kp config ledger request view)) = false.
Proof.
  intros Hr. destruct view as [ltx|vtx]; simpl.
  - unfold legacy_cosign, simulateRawTransaction. pipe_unfold.
    destruct (validateInstructions ledger ltx); [|reflexivity]. simpl.
    destruct (partialSign codec kp ltx) as [signed|]; [|reflexivity]. simpl.
    destruct (transaction_serialize codec signed) as [raw|]; [|reflexivity]. simpl.
    destruct (simulate_raw ledger raw) as [[d|]|]; try reflexivity. simpl.
    destruct (legacy_signature codec signed) as [s|]; [|reflexivity]. simpl.
    pose proof (dispatch_no_submit config ledger request raw s Hr) as H.
    destruct (dispatch config ledger request raw s) as [evs r]. exact H.
  - unfold v0_cosign. pipe_unfold.
    destruct (versioned_sign codec kp vtx) as [signed|]; [|reflexivity]. simpl.
    destruct (versioned_serialize codec signed) as [raw|]; [|reflexivity]. simpl.
    destruct (simulateTransaction ledger signed) as [[d|]|]; try reflexivity. simpl.
    destruct (v0_signature codec signed) as [s|]; [|reflexivity]. simpl.
    pose proof (dispatch_no_submit config ledger request raw s Hr) as H.
    destruct (dispatch config ledger request raw s) as [evs r]. exact H.
Qed.

Lemma emitted_no_submit codec kp config ledger request now w :
  returnSignature config <> None ->
  existsb is_submit (emitted codec kp config ledger request now w) = false.
Proof.
  intros Hc.
  destruct (reaches_signature_checks codec kp ledger request now w) as [[bh view]|] eqn:Hr.
  - pose proof (reaches_run codec kp config ledger request now w bh view Hr) as H.
    destruct (check_signatures kp config view); destruct H as [_ ->]; [|reflexivity].
    simpl. now apply cosign_no_submit.
  - destruct (admitted codec request now w) as [[buffer vtx]|] eqn:Ha.
    + unfold reaches_signature_checks in Hr. rewrite Ha in Hr.
      rewrite (emitted_admitted _ _ _ _ _ _ _ _ _ Ha). unfold sponsor_locked.
      destruct (VersionedTransaction.version vtx).
      * unfold legacy_fresh in Hr. unfold sponsor_legacy. pipe_unfold.
        destruct (transaction_from codec buffer) as [ltx|e]; [|reflexivity].
        simpl. destruct (from_option _ _ _); simpl; [|reflexivity].
        destruct (truthy_blockhash _) as [b|]; [|reflexivity].
        destruct (isBlockhashValid ledger b) as [[|]|e]; simpl;
          [discriminate | reflexivity | reflexivity].
      * unfold v0_fresh in Hr. unfold sponsor_v0.
        destruct (_ !! 0%nat) as [k|]; [|reflexivity].
        destruct (equals k (publicKey kp)); simpl; [|reflexivity].
        destruct (bool_decide _); [reflexivity|]. pipe_unfold.
        destruct (isBlockhashValid ledger _) as [[|]|e]; simpl;
          [discriminate | reflexivity | reflexivity].
    + now rewrite (emitted_not_admitted _ _ _ _ _ _ _ Ha).
Qed.

(** C7, as the code has it.  Under [returnSignature = allowAll] nothing
    is ever submitted; [dispatch] answers 200 without any further gate;
    and a 200 answer carries the two fields [status] and [signature] only,
    the latter being the identifier of the co-signed transaction, base58
    of its slot 0.  The signed transaction bytes are not returned. *)
Theorem allowAll_returns_signature codec kp config ledger request now w :
  returnSignature config = Some AllowAll ->
  existsb is_submit (emitted codec kp config ledger request now w) = false
  /\ (forall raw signature,
        dispatch config ledger request raw signature = ([], Ok (ok_response signature)))
  /\ (forall response,
        sent codec kp config ledger request now w = Sent response ->
        statusCode response = 200 ->
        exists bh view signature,
          reaches_signature_checks codec kp ledger request now w = Some (bh, view)
          /\ check_signatures kp config view = Ok tt
          /\ cosigned_signature codec kp view = Ok signature
          /\ body response = [("status", "ok"); ("signature", signature)]).
Proof.
  intros Hc. split; [apply emitted_no_submit; congruence|].
  split; [intros; now apply dispatch_allowAll|].
  intros response Hs H200.
  destruct (sent_cases codec kp config ledger request now w)
    as [[e He] | [[m Hm] | (bh & view & r & Hr & Hk & Ho & Hsent)]].
  - congruence.
  - rewrite Hs in Hm. injection Hm as ->. discriminate.
  - rewrite Hs in Hsent. injection Hsent as <-.
    destruct (cosign_ok _ _ _ _ _ _ _ Ho) as (raw & s & Hsig & Hd).
    rewrite (dispatch_allowAll _ _ _ _ _ Hc) in Hd. injection Hd as <-.
    exists bh, view, s. auto.
Qed.

Lemma allowAll_returns_signature_witness :
  existsb is_submit
    (emitted (codec_v0 1 [zero_sig]) custodial (config_allowAll 2) ledger_ok
             (request_of wire) 0 empty_world) = false
  /\ dispatch (config_allowAll 2) ledger_ok (request_of wire) [7; 7; 7; 7; 2; 0; 1] "BRGsx"
     = ([], Ok (ok_response "BRGsx"))
  /\ exists bh view signature,
       reaches_signature_checks (codec_v0 1 [zero_sig]) custodial ledger_ok
         (request_of wire) 0 empty_world = Some (bh, view)
       /\ check_signatures custodial (config_allowAll 2) view = Ok tt
       /\ cosigned_signature (codec_v0 1 [zero_sig]) custodial view = Ok signature
       /\ body (ok_response "BRGsx") = [("status", "ok"); ("signature", signature)].
Proof.
  destruct (allowAll_returns_signature (codec_v0 1 [zero_sig]) custodial (config_allowAll 2)
              ledger_ok (request_of wire) 0 empty_world eq_refl) as (H1 & H2 & H3).
  split; [exact H1|]. split; [apply H2|].
  apply H3; [vm_compute|]; reflexivity.
Defined.

(** C7, as stated, fails: under [allowAll] the answer holds the signature
    identifier and nothing else; the bytes of the signed transaction are
    in no field of it. *)
Lemma allowAll_returns_no_signed_bytes :
  returnSignature (config_allowAll 2) = Some AllowAll
  /\ versioned_serialize (codec_v0 1 [zero_sig]) (v0_tx (publicKey custodial) 1 [service_signature])
     = Ok [7; 7; 7; 7; 2; 0; 1]
  /\ sent (codec_v0 1 [zero_sig]) custodial (config_allowAll 2) ledger_ok
          (request_of wire) 0 empty_world
     = Sent {| statusCode := 200;
               body := [("status", "ok"); ("signature", bs58_encode service_signature)] |}
  /\ bs58_encode service_signature <> bs58_encode [7; 7; 7; 7; 2; 0; 1].
Proof. vm_compute. repeat split; try reflexivity. discriminate. Qed.

(** ** The shape of every answer, and the request that gets none *)

(** Every answer that the handler sends is [{status: "error", message}]
    with code 400 or [{status: "ok", signature}] with code 200. *)
Lemma sent_response_shape codec kp config ledger request now w response :
  sent codec kp config ledger request now w = Sent response ->
  (exists message, response = error_response message)
  \/ (exists signature, response = ok_response signature).
Proof.
  intros Hs.
  destruct (sent_cases codec kp config ledger request now w)
    as [[e He] | [[m Hm] | (bh & view & r & Hr & Hk & Ho & Hsent)]].
  - congruence.
  - left. exists m. congruence.
  - rewrite Hs in Hsent. injection Hsent as <-.
    destruct (cosign_ok _ _ _ _ _ _ _ Ho) as (raw & s & _ & Hd).
    destruct (dispatch_shape _ _ _ _ _ _ Hd) as [-> | ->]; eauto.
Qed.

(** An exception of [base58.decode] (line 31) is thrown outside both [try]
    blocks: it leaves the handler and no answer is sent. *)
Lemma decode_failure_escapes codec kp config ledger request now w serialized e :
  body_transaction request = JsString serialized ->
  base58_decode codec serialized = Throw e ->
  sponsor codec kp config ledger request now w = (Unhandled e, w).
Proof. unfold sponsor. now intros -> ->. Qed.

(** C8 at the request [{transaction: "0OIl"}], a string with characters
    outside the base58 alphabet: the handler sends no [{status, message}]
    answer with code 400; the exception of the decoder escapes it. *)
Theorem non_base58_request_unhandled vtx legacyTx kp config ledger now w :
  bs58_decode "0OIl" = Throw (JsError "Non-base58 character")
  /\ sponsor (codec_of vtx legacyTx) kp config ledger (request_of "0OIl") now w
     = (Unhandled (JsError "Non-base58 character"), w)
  /\ forall response,
       sent (codec_of vtx legacyTx) kp config ledger (request_of "0OIl") now w
       <> Sent response.
Proof.
  assert (E : bs58_decode "0OIl" = Throw (JsError "Non-base58 character"))
    by (vm_compute; reflexivity).
  assert (S : sponsor (codec_of vtx legacyTx) kp config ledger (request_of "0OIl") now w
              = (Unhandled (JsError "Non-base58 character"), w))
    by (now apply decode_failure_escapes with (serialized := "0OIl"%string)).
  split; [exact E|]. split; [exact S|].
  intros response. unfold sent. rewrite S. discriminate.
Qed.

(** ** The slot count of admitted transactions *)


Lemma v0_fresh_view kp ledger vtx bh view :
  v0_fresh kp ledger vtx = Some (bh, view) -> view = V0View vtx.
Proof.
  unfold v0_fresh.
  destruct (_ !! 0%nat) as [k|]; [|discriminate].
  destruct (equals k (publicKey kp)); [|discriminate].
  destruct (bool_decide _); [discriminate|].
  destruct (isBlockhashValid ledger _) as [[|]|]; try discriminate.
  now intros [= <- <-].
Qed.




(** ** The duplicate lock *)

(** Two transactions with the same message bytes have the same lock key,
    whatever their signatures. *)
Lemma lock_key_message codec vtx1 vtx2 :
  message_serialize codec (VersionedTransaction.message vtx2)
  = message_serialize codec (VersionedTransaction.message vtx1) ->
  lock_key codec vtx2 = lock_key codec vtx1.
Proof. unfold lock_key. now intros ->. Qed.

(** The request that takes the lock leaves it in the cache, whatever it is
    answered. *)
Lemma lock_taken codec kp config ledger request now w buffer vtx :
  admitted codec request now w = Some (buffer, vtx) ->
  cache (after codec kp config ledger request now w)
  = cache_set (cache w) now (lock_key codec vtx).
Proof.
  intros Ha. unfold after. now rewrite (sponsor_admitted _ _ _ _ _ _ _ _ _ Ha).
Qed.

Lemma cache_get_set c now key later :
  cache_get (cache_set c now key) later key = (later <? now + ttl c).
Proof. unfold cache_get, cache_set. simpl. now rewrite lookup_insert_eq. Qed.

Lemma cache_get_set_ne c now key later key' :
  key <> key' -> cache_get (cache_set c now key) later key' = cache_get c later key'.
Proof.
  intros Hne. unfold cache_get, cache_set. simpl. now rewrite lookup_insert_ne.
Qed.

(** A request that decodes and finds its digest locked is answered
    "duplicate transaction"; it changes nothing and calls nobody. *)
Lemma duplicate_rejected codec kp config ledger request now w buffer vtx :
  decode_request codec request = Some (buffer, vtx) ->
  cache_get (cache w) now (lock_key codec vtx) = true ->
  admitted codec request now w = None
  /\ sponsor codec kp config ledger request now w
     = (Sent (error_response "duplicate transaction"), w).
Proof.
  intros Hd Hc. split.
  - unfold admitted. now rewrite Hd, Hc.
  - unfold decode_request in Hd. unfold sponsor.
    destruct (body_transaction request); try discriminate.
    destruct (base58_decode codec s); try discriminate.
    destruct (deserialize codec a); try discriminate.
    injection Hd as <- <-. now rewrite Hc.
Qed.

(** The answer and the external calls of a request depend on the world
    only through the liveness of its own lock. *)
Lemma sponsor_lock_only codec kp config ledger request now w w' buffer vtx :
  decode_request codec request = Some (buffer, vtx) ->
  cache_get (cache w) now (lock_key codec vtx)
  = cache_get (cache w') now (lock_key codec vtx) ->
  sent codec kp config ledger request now w = sent codec kp config ledger request now w'
  /\ emitted codec kp config ledger request now w
     = emitted codec kp config ledger request now w'.
Proof.
  intros Hd Hc.
  destruct (cache_get (cache w') now (lock_key codec vtx)) eqn:E.
  - destruct (duplicate_rejected codec kp config ledger request now w buffer vtx Hd Hc)
      as [Ha Hs].
    destruct (duplicate_rejected codec kp config ledger request now w' buffer vtx Hd E)
      as [Ha' Hs'].
    rewrite (emitted_not_admitted _ _ _ _ _ _ _ Ha), (emitted_not_admitted _ _ _ _ _ _ _ Ha').
    unfold sent. now rewrite Hs, Hs'.
  - assert (Ha : admitted codec request now w = Some (buffer, vtx))
      by (unfold admitted; now rewrite Hd, Hc).
    assert (Ha' : admitted codec request now w' = Some (buffer, vtx))
      by (unfold admitted; now rewrite Hd, E).
    now rewrite (sent_admitted _ _ _ _ _ _ _ _ _ Ha), (sent_admitted _ _ _ _ _ _ _ _ _ Ha'),
      (emitted_admitted _ _ _ _ _ _ _ _ _ Ha), (emitted_admitted _ _ _ _ _ _ _ _ _ Ha').
Qed.

(** Served without interleaving, a request makes its lookup and its write
    at one instant in one world. *)
Lemma sponsor_in_two_steps codec kp config ledger request now w :
  sponsor codec kp config ledger request now w
  = match lookup codec request now w with
    | Checked buffer vtx => resume codec kp config ledger request now buffer vtx w
    | Answered o => (o, w)
    end.
Proof.
  unfold sponsor, lookup, resume.
  destruct (body_transaction request); try reflexivity.
  destruct (base58_decode codec s); try reflexivity.
  destruct (deserialize codec a) as [v|[m|]]; try reflexivity.
  destruct (cache_get _ _ _); reflexivity.
Qed.

Lemma lookup_decoded codec request now w buffer vtx :
  decode_request codec request = Some (buffer, vtx) ->
  lookup codec request now w
  = if cache_get (cache w) now (lock_key codec vtx)
    then Answered (Sent (error_response "duplicate transaction"))
    else Checked buffer vtx.
Proof.
  unfold decode_request, lookup.
  destruct (body_transaction request); try discriminate.
  destruct (base58_decode codec s); try discriminate.
  destruct (deserialize codec a); try discriminate.
  now intros [= <- <-].
Qed.

Lemma lock_key_digest codec vtx :
  lock_key codec vtx = ("transaction/" +:+ message_digest codec vtx)%string.
Proof. reflexivity. Qed.

(** Writes made from the instant [t] on never bring the expiry of a key
    below [t + ttl]. *)
Lemma writes_keep_lock codec kp config P t w w' key :
  Writes codec kp config P t w w' ->
  forall expiry,
    entries (cache w) !! key = Some expiry ->
    t + ttl (cache w) <= expiry ->
    exists expiry',
      entries (cache w') !! key = Some expiry' /\ t + ttl (cache w) <= expiry'.
Proof.
  induction 1 as [w | w w' ledger request now buffer vtx Hnow HP Hw IH]; intros expiry He Hle.
  - eauto.
  - simpl in IH. unfold cache_set in IH. simpl in IH.
    destruct (decide (lock_key codec vtx = key)) as [<-|Hne].
    + apply (IH (now + ttl (cache w))); [apply lookup_insert_eq | lia].
    + apply (IH expiry); [now rewrite lookup_insert_ne | exact Hle].
Qed.

(** Writes on other keys leave the entry of a key as it is. *)
Lemma writes_elsewhere codec kp config t w w' key :
  Writes codec kp config (fun k => k <> key) t w w' ->
  entries (cache w') !! key = entries (cache w) !! key.
Proof.
  induction 1 as [w | w w' ledger request now buffer vtx Hnow HP Hw IH]; [reflexivity|].
  rewrite IH. simpl. unfold cache_set. simpl. now apply lookup_insert_ne.
Qed.

(** C2, as the code has it.  The lookup (line 47) and the write (line 50)
    are two steps, and other requests may run between them.  Once a
    request has written its lock at [t1], a request with the same message
    bytes whose lookup comes after that write and within the TTL,
    whatever cache writes other requests in flight make from [t1] on, is
    answered 400 "duplicate transaction" at its lookup, so that it makes
    no call and submits nothing.  A lookup at or after [t1 + ttl], the
    key not having been written again, passes, and the request is then
    answered, and makes the calls, that it would in a world in which
    nothing was ever sponsored.  The lock is per digest: the write does
    not change the lookup of a message with another digest. *)
Theorem one_admission_after_lock codec kp config ledger1 request1 request2 t0 t1 t2 w0 w1
  buffer1 vtx1 buffer2 vtx2 :
  lookup codec request1 t0 w0 = Checked buffer1 vtx1 ->
  decode_request codec request2 = Some (buffer2, vtx2) ->
  message_serialize codec (VersionedTransaction.message vtx2)
  = message_serialize codec (VersionedTransaction.message vtx1) ->
  (forall w3,
     Writes codec kp config (fun _ => True) t1
       (snd (resume codec kp config ledger1 request1 t1 buffer1 vtx1 w1)) w3 ->
     t2 < t1 + ttl (cache w1) ->
     lookup codec request2 t2 w3 = Answered (Sent (error_response "duplicate transaction"))
     /\ forall ledger2,
          sponsor codec kp config ledger2 request2 t2 w3
          = (Sent (error_response "duplicate transaction"), w3))
  /\ (forall w3,
        Writes codec kp config (fun key => key <> lock_key codec vtx1) t1
          (snd (resume codec kp config ledger1 request1 t1 buffer1 vtx1 w1)) w3 ->
        t1 + ttl (cache w1) <= t2 ->
        lookup codec request2 t2 w3 = Checked buffer2 vtx2
        /\ forall ledger2 t w4,
             fst (resume codec kp config ledger2 request2 t buffer2 vtx2 w4)
             = sent codec kp config ledger2 request2 t2 (fresh_world (ttl (cache w1)))
             /\ trace (snd (resume codec kp config ledger2 request2 t buffer2 vtx2 w4))
                = trace w4
                  ++ emitted codec kp config ledger2 request2 t2 (fresh_world (ttl (cache w1))))
  /\ (forall request3 buffer3 vtx3 t3,
        decode_request codec request3 = Some (buffer3, vtx3) ->
        message_digest codec vtx3 <> message_digest codec vtx1 ->
        lookup codec request3 t3 (snd (resume codec kp config ledger1 request1 t1 buffer1 vtx1 w1))
        = lookup codec request3 t3 w1).
Proof.
  intros _ Hd Hm. pose proof (lock_key_message codec vtx1 vtx2 Hm) as Hk.
  assert (He : entries (cache (snd (resume codec kp config ledger1 request1 t1 buffer1 vtx1 w1)))
                 !! lock_key codec vtx2 = Some (t1 + ttl (cache w1))).
  { simpl. unfold cache_set. simpl. rewrite Hk. apply lookup_insert_eq. }
  split; [|split].
  - intros w3 Hw Ht.
    destruct (writes_keep_lock _ _ _ _ _ _ _ (lock_key codec vtx2) Hw _ He
                ltac:(simpl; lia)) as (e & Hlook & Hle).
    assert (Hlive : cache_get (cache w3) t2 (lock_key codec vtx2) = true).
    { unfold cache_get. rewrite Hlook. apply Z.ltb_lt. simpl in Hle. lia. }
    split.
    + now rewrite (lookup_decoded _ _ _ _ _ _ Hd), Hlive.
    + intros ledger2.
      now rewrite sponsor_in_two_steps, (lookup_decoded _ _ _ _ _ _ Hd), Hlive.
  - intros w3 Hw Ht.
    assert (Hdead : cache_get (cache w3) t2 (lock_key codec vtx2) = false).
    { unfold cache_get. rewrite Hk, (writes_elsewhere _ _ _ _ _ _ _ Hw), <- Hk, He.
      now apply Z.ltb_ge. }
    split; [now rewrite (lookup_decoded _ _ _ _ _ _ Hd), Hdead|].
    intros ledger2 t w4.
    assert (Ha : admitted codec request2 t2 (fresh_world (ttl (cache w1)))
                 = Some (buffer2, vtx2)) by (unfold admitted; now rewrite Hd).
    now rewrite (sent_admitted _ _ _ _ _ _ _ _ _ Ha), (emitted_admitted _ _ _ _ _ _ _ _ _ Ha).
  - intros request3 buffer3 vtx3 t3 Hd3 Hne.
    rewrite !(lookup_decoded _ _ _ _ _ _ Hd3). simpl.
    rewrite cache_get_set_ne; [reflexivity|].
    rewrite !lock_key_digest. intros E. apply Hne.
    now injection E.
Qed.

Lemma one_admission_after_lock_witness :
  (lookup (codec_v0 1 [zero_sig]) (request_of "2g") 4
     (snd (resume (codec_v0 1 [zero_sig]) custodial (config_submit 2) ledger_ok
             (request_of wire) 0 wire_bytes (v0_tx (publicKey custodial) 1 [zero_sig])
             empty_world))
   = Answered (Sent (error_response "duplicate transaction"))
   /\ forall ledger2,
        sponsor (codec_v0 1 [zero_sig]) custodial (config_submit 2) ledger2 (request_of "2g") 4
          (snd (resume (codec_v0 1 [zero_sig]) custodial (config_submit 2) ledger_ok
                  (request_of wire) 0 wire_bytes (v0_tx (publicKey custodial) 1 [zero_sig])
                  empty_world))
        = (Sent (error_response "duplicate transaction"),
           snd (resume (codec_v0 1 [zero_sig]) custodial (config_submit 2) ledger_ok
                  (request_of wire) 0 wire_bytes (v0_tx (publicKey custodial) 1 [zero_sig])
                  empty_world)))
  /\ lookup (codec_v0 1 [zero_sig]) (request_of "2g") 5
       (snd (resume (codec_v0 1 [zero_sig]) custodial (config_submit 2) ledger_ok
               (request_of wire) 0 wire_bytes (v0_tx (publicKey custodial) 1 [zero_sig])
               empty_world))
     = Checked [97] (v0_tx (publicKey custodial) 1 [zero_sig]).
Proof.
  destruct (one_admission_after_lock (codec_v0 1 [zero_sig]) custodial (config_submit 2)
              ledger_ok (request_of wire) (request_of "2g") 0 0 4 empty_world empty_world
              wire_bytes (v0_tx (publicKey custodial) 1 [zero_sig])
              [97] (v0_tx (publicKey custodial) 1 [zero_sig]))
    as (HA & _ & _); try (vm_compute; reflexivity).
  destruct (one_admission_after_lock (codec_v0 1 [zero_sig]) custodial (config_submit 2)
              ledger_ok (request_of wire) (request_of "2g") 0 0 5 empty_world empty_world
              wire_bytes (v0_tx (publicKey custodial) 1 [zero_sig])
              [97] (v0_tx (publicKey custodial) 1 [zero_sig]))
    as (_ & HB & _); try (vm_compute; reflexivity).
  split.
  - apply HA; [apply writes_none | unfold empty_world, default_ttl; simpl; lia].
  - apply HB; [apply writes_none | unfold empty_world, default_ttl; simpl; lia].
Defined.

(** C2, as stated, fails: two requests with the same message bytes, the
    second making its lookup before the first has made its write, both
    pass line 47, both are answered 200 and the transaction is submitted
    twice. *)
Lemma concurrent_duplicates_both_sponsored :
  lookup (codec_v0 1 [zero_sig]) (request_of wire) 0 empty_world
  = Checked wire_bytes (v0_tx (publicKey custodial) 1 [zero_sig])
  /\ lookup (codec_v0 1 [zero_sig]) (request_of "2g") 0 empty_world
     = Checked [97] (v0_tx (publicKey custodial) 1 [zero_sig])
  /\ fst (resume (codec_v0 1 [zero_sig]) custodial (config_submit 2) ledger_ok
            (request_of wire) 1 wire_bytes (v0_tx (publicKey custodial) 1 [zero_sig])
            empty_world)
     = Sent (ok_response "BRGsx")
  /\ fst (resume (codec_v0 1 [zero_sig]) custodial (config_submit 2) ledger_ok
            (request_of "2g") 1 [97] (v0_tx (publicKey custodial) 1 [zero_sig])
            (snd (resume (codec_v0 1 [zero_sig]) custodial (config_submit 2) ledger_ok
                    (request_of wire) 1 wire_bytes (v0_tx (publicKey custodial) 1 [zero_sig])
                    empty_world)))
     = Sent (ok_response "BRGsx")
  /\ List.filter is_submit
       (trace (snd (resume (codec_v0 1 [zero_sig]) custodial (config_submit 2) ledger_ok
                      (request_of "2g") 1 [97] (v0_tx (publicKey custodial) 1 [zero_sig])
                      (snd (resume (codec_v0 1 [zero_sig]) custodial (config_submit 2)
                              ledger_ok (request_of wire) 1 wire_bytes
                              (v0_tx (publicKey custodial) 1 [zero_sig]) empty_world)))))
     = [EvSubmit [7; 7; 7; 7; 2; 0; 1]; EvSubmit [7; 7; 7; 7; 2; 0; 1]].
Proof. vm_compute. repeat split; reflexivity. Qed.



(** ** Further properties of the handler *)

(** An admitted request that does not reach the signature checks has made
    at most the blockhash query, and is answered 400. *)
Lemma stopped_before_checks codec kp config ledger request now w :
  reaches_signature_checks codec kp ledger request now w = None ->
  emitted codec kp config ledger request now w = []
  \/ exists bh, emitted codec kp config ledger request now w = [EvIsBlockhashValid bh].
Proof.
  intros Hr. unfold reaches_signature_checks in Hr.
  destruct (admitted codec request now w) as [[buffer vtx]|] eqn:Ha.
  - rewrite (emitted_admitted _ _ _ _ _ _ _ _ _ Ha). unfold sponsor_locked.
    destruct (VersionedTransaction.version vtx).
    + unfold legacy_fresh in Hr. unfold sponsor_legacy. pipe_unfold.
      destruct (transaction_from codec buffer) as [ltx|e]; [|now left].
      simpl. destruct (from_option _ _ _); simpl; [|now left].
      destruct (truthy_blockhash _) as [b|]; [|now left].
      destruct (isBlockhashValid ledger b) as [[|]|e]; simpl;
        [discriminate | right; eauto | right; eauto].
    + unfold v0_fresh in Hr. unfold sponsor_v0.
      destruct (_ !! 0%nat) as [k|]; [|now left].
      destruct (equals k (publicKey kp)); simpl; [|now left].
      destruct (bool_decide _); [now left|]. pipe_unfold.
      destruct (isBlockhashValid ledger _) as [[|]|e]; simpl;
        [discriminate | right; eauto | right; eauto].
  - left. now apply emitted_not_admitted.
Qed.

(** The calls of the co-signing stage: the instruction check (legacy
    only), the signing of the view, the dry run, then what [dispatch]
    does.  Either the stage stops with an exception after one of the first
    three, or the dry run reports no error and the stage ends as
    [dispatch] does. *)
Lemma cosign_run codec kp config ledger request view :
  let pre := match view with LegacyView _ => [EvValidateInstructions] | V0View _ => [] end in
  ((exists e, outcome (cosign codec kp config ledger request view) = Throw e)
   /\ (events (cosign codec kp config ledger request view) = pre
       \/ events (cosign codec kp config ledger request view) = pre ++ [sign_event view]
       \/ exists sim,
            is_simulate sim = true
            /\ events (cosign codec kp config ledger request view)
               = pre ++ [sign_event view; sim]))
  \/ (exists sim raw signature,
        simulates codec sim raw
        /\ simulation_report ledger sim = Some (Ok None)
        /\ cosigned_signature codec kp view = Ok signature
        /\ events (cosign codec kp config ledger request view)
           = pre ++ [sign_event view; sim]
             ++ events (dispatch config ledger request raw signature)
        /\ outcome (cosign codec kp config ledger request view)
           = outcome (dispatch config ledger request raw signature)).
Proof.
  destruct view as [ltx|vtx]; simpl.
  - unfold legacy_cosign, simulateRawTransaction. pipe_unfold.
    destruct (validateInstructions ledger ltx); [|left; eauto]. simpl.
    destruct (partialSign codec kp ltx) as [signed|]; [|left; eauto]. simpl.
    destruct (transaction_serialize codec signed) as [raw|]; [|left; eauto]. simpl.
    destruct (simulate_raw ledger raw) as [[d|]|] eqn:Esim; simpl.
    + left. split; [eauto|]. right; right. exists (EvSimulateRaw raw). auto.
    + unfold legacy_signature.
      destruct (Transaction.signatures signed) as [|[[sig|] pk] rest]; simpl;
        try (left; split; [eauto|]; right; right; exists (EvSimulateRaw raw); now auto).
      right. exists (EvSimulateRaw raw), raw, (base58_encode codec sig). simpl. rewrite Esim.
      destruct (dispatch config ledger request raw (base58_encode codec sig)). auto.
    + left. split; [eauto|]. right; right. exists (EvSimulateRaw raw). auto.
  - unfold v0_cosign. pipe_unfold.
    destruct (versioned_sign codec kp vtx) as [signed|]; [|left; eauto]. simpl.
    destruct (versioned_serialize codec signed) as [raw|] eqn:Eraw; [|left; eauto]. simpl.
    destruct (simulateTransaction ledger signed) as [[d|]|] eqn:Esim; simpl.
    + left. split; [eauto|]. right; right. exists (EvSimulateV0 signed). auto.
    + unfold v0_signature.
      destruct (VersionedTransaction.signatures signed !! 0%nat) as [sig|]; simpl;
        try (left; split; [eauto|]; right; right; exists (EvSimulateV0 signed); now auto).
      right. exists (EvSimulateV0 signed), raw, (base58_encode codec sig). simpl. rewrite Esim.
      destruct (dispatch config ledger request raw (base58_encode codec sig)). auto.
    + left. split; [eauto|]. right; right. exists (EvSimulateV0 signed). auto.
Qed.

(** What [dispatch] calls: nothing, the anti-abuse check, or the
    submission. *)
Lemma dispatch_run config ledger request raw signature :
  events (dispatch config ledger request raw signature) = []
  \/ events (dispatch config ledger request raw signature) = [EvAntiSpam]
  \/ (returnSignature config = None
      /\ events (dispatch config ledger request raw signature) = [EvSubmit raw]
      /\ (outcome (dispatch config ledger request raw signature) = Ok (ok_response signature)
          /\ sendAndConfirmRawTransaction ledger raw = Ok tt
          \/ exists e, outcome (dispatch config ledger request raw signature) = Throw e
                       /\ sendAndConfirmRawTransaction ledger raw = Throw e)).
Proof.
  unfold dispatch, isReturnedSignatureAllowed. pipe_unfold.
  destruct (returnSignature config) as [[|minScore]|]; simpl.
  - now left.
  - right; left. destruct (scoreChallenge ledger request minScore) as [[|]|]; reflexivity.
  - right; right. split; [reflexivity|].
    destruct (sendAndConfirmRawTransaction ledger raw) as [[]|e]; simpl; eauto.
Qed.

Ltac sorted_stages :=
  simpl;
  repeat match goal with
         | |- StronglySorted _ _ => constructor
         | |- Forall _ _ => constructor
         end;
  try lia.

Lemma sign_event_stage view : stage (sign_event view) = 2%nat.
Proof. now destruct view. Qed.

Lemma simulate_stage sim : is_simulate sim = true -> stage sim = 3%nat.
Proof. destruct sim; simpl; congruence. Qed.

Lemma simulates_simulate codec sim raw : simulates codec sim raw -> is_simulate sim = true.
Proof. destruct sim; simpl; try contradiction; reflexivity. Qed.

(** X1. The external calls of a request come in one fixed order, each at
    most once: the blockhash query, the instruction check, the signing,
    the dry run, and last the anti-abuse check or the submission. *)
Theorem external_calls_in_order codec kp config ledger request now w :
  StronglySorted lt (map stage (emitted codec kp config ledger request now w)).
Proof.
  destruct (reaches_signature_checks codec kp ledger request now w) as [[bh view]|] eqn:Hr.
  - pose proof (reaches_run codec kp config ledger request now w bh view Hr) as H.
    destruct (check_signatures kp config view); destruct H as [_ ->]; [|sorted_stages].
    destruct (cosign_run codec kp config ledger request view)
      as [[_ [E | [E | (sim & Hsim & E)]]] | (sim & raw & s & Hs & _ & _ & E & _)];
      rewrite E; clear E.
    + destruct view; sorted_stages.
    + destruct view; simpl; rewrite ?sign_event_stage; sorted_stages.
    + apply simulate_stage in Hsim.
      destruct view; simpl; rewrite Hsim; sorted_stages.
    + apply simulates_simulate, simulate_stage in Hs.
      destruct (dispatch_run config ledger request raw s) as [E | [E | (_ & E & _)]];
        rewrite E; destruct view; simpl; rewrite Hs; sorted_stages.
  - destruct (stopped_before_checks codec kp config ledger request now w Hr) as [-> | [bh ->]];
      sorted_stages.
Qed.

Lemma legacy_sign_after_policy codec kp config ledger request legacyTx e :
  In e (events (legacy_cosign codec kp config ledger request legacyTx)) ->
  is_sign e = true ->
  validateInstructions ledger legacyTx = Ok tt.
Proof.
  unfold legacy_cosign. pipe_unfold.
  destruct (validateInstructions ledger legacyTx) as [[]|err]; [reflexivity|].
  simpl. intros [<-|[]]. discriminate.
Qed.

Lemma cosign_sign_event codec kp config ledger request view e :
  In e (events (cosign codec kp config ledger request view)) ->
  is_sign e = true -> e = sign_event view.
Proof.
  intros Hin Hs.
  assert (Hpre : forall x, In x (match view with
                                 | LegacyView _ => [EvValidateInstructions]
                                 | V0View _ => [] end) -> is_sign x = false)
    by (destruct view; simpl; intros x [<-|[]] || intros x []; reflexivity).
  assert (Hd : forall raw s x, In x (events (dispatch config ledger request raw s)) ->
                               is_sign x = false).
  { intros raw s x Hx.
    destruct (dispatch_run config ledger request raw s) as [E | [E | (_ & E & _)]];
      rewrite E in Hx; simpl in Hx; intuition (subst; reflexivity). }
  destruct (cosign_run codec kp config ledger request view)
    as [[_ [E | [E | (sim & Hsim & E)]]] | (sim & raw & s & Hsimu & _ & _ & E & _)];
    rewrite E in Hin; clear E.
  - apply Hpre in Hin. congruence.
  - apply in_app_or in Hin as [Hin | [E | []]]; [apply Hpre in Hin; congruence | now subst].
  - apply in_app_or in Hin as [Hin | [E | [E | []]]];
      [apply Hpre in Hin; congruence | now subst |].
    subst sim. destruct e; simpl in *; discriminate.
  - apply in_app_or in Hin as [Hin | Hin]; [apply Hpre in Hin; congruence|].
    apply in_app_or in Hin as [[E | [E | []]] | Hin]; [now subst | |].
    + subst sim. apply simulates_simulate in Hsimu. destruct e; simpl in *; discriminate.
    + apply Hd in Hin. congruence.
Qed.

(** X2. The custodial key signs nothing but what passed every check: a
    signing call is made only for a request that took the lock, passed the
    fee payer and blockhash stages and the signature checks, and, in the
    legacy branch, whose instructions were accepted; and it signs the very
    transaction that was checked. *)
Theorem signs_only_validated codec kp config ledger request now w e :
  In e (emitted codec kp config ledger request now w) ->
  is_sign e = true ->
  exists bh view,
    reaches_signature_checks codec kp ledger request now w = Some (bh, view)
    /\ check_signatures kp config view = Ok tt
    /\ e = sign_event view
    /\ match view with
       | LegacyView legacyTx => validateInstructions ledger legacyTx = Ok tt
       | V0View _ => True
       end.
Proof.
  intros Hin Hs.
  destruct (reaches_signature_checks codec kp ledger request now w) as [[bh view]|] eqn:Hr.
  - pose proof (reaches_run codec kp config ledger request now w bh view Hr) as H.
    destruct (check_signatures kp config view) as [[]|err] eqn:Hc; destruct H as [_ He];
      rewrite He in Hin.
    + destruct Hin as [<-|Hin]; [discriminate|].
      exists bh, view. split; [reflexivity|]. split; [exact Hc|].
      split; [now apply (cosign_sign_event codec kp config ledger request)|].
      destruct view as [ltx|vtx]; [|exact I].
      now apply (legacy_sign_after_policy codec kp config ledger request ltx e).
    + destruct Hin as [<-|[]]. discriminate.
  - destruct (stopped_before_checks codec kp config ledger request now w Hr) as [E | [bh E]];
      rewrite E in Hin; [destruct Hin|]. destruct Hin as [<-|[]]. discriminate.
Qed.

Lemma signs_only_validated_witness :
  exists bh view,
    reaches_signature_checks (codec_v0 1 [zero_sig]) custodial ledger_ok (request_of wire) 0
      empty_world = Some (bh, view)
    /\ check_signatures custodial (config_submit 2) view = Ok tt
    /\ EvSignV0 (v0_tx (publicKey custodial) 1 [zero_sig]) = sign_event view
    /\ match view with
       | LegacyView legacyTx => validateInstructions ledger_ok legacyTx = Ok tt
       | V0View _ => True
       end.
Proof.
  apply (signs_only_validated (codec_v0 1 [zero_sig]) custodial (config_submit 2) ledger_ok
           (request_of wire) 0 empty_world).
  - vm_compute. auto.
  - reflexivity.
Defined.

(** X3. Whatever the handler sends is [{status: "error", message}] with
    code 400 or [{status: "ok", signature}] with code 200; and a 200 is
    sent only to a request that took the lock, passed the fee payer and
    blockhash stages, the signature checks and, in the legacy branch, the
    instruction check; whose transaction was signed and then dry-run
    without error; and that the return gate allowed, when
    [returnSignature] is configured, or whose submission was confirmed,
    when it is not.  The signature returned is the identifier of the
    co-signed transaction, and the calls made are the blockhash query,
    the instruction check, the signing, the dry run and those of
    [dispatch], in this order. *)
Theorem answers_are_well_formed codec kp config ledger request now w response :
  sent codec kp config ledger request now w = Sent response ->
  (exists message, response = error_response message)
  \/ (exists bh view signature sim raw,
        reaches_signature_checks codec kp ledger request now w = Some (bh, view)
        /\ check_signatures kp config view = Ok tt
        /\ policy_passed ledger view
        /\ signed_wire codec kp view = Ok (sim, raw)
        /\ simulates codec sim raw
        /\ simulation_report ledger sim = Some (Ok None)
        /\ released config ledger request raw
        /\ emitted codec kp config ledger request now w
           = EvIsBlockhashValid bh :: policy_events view ++ [sign_event view; sim]
             ++ events (dispatch config ledger request raw signature)
        /\ cosigned_signature codec kp view = Ok signature
        /\ response = ok_response signature).
Proof.
  intros Hs.
  destruct (sent_cases codec kp config ledger request now w)
    as [[e He] | [[m Hm] | (bh & view & r & Hr & Hk & Ho & Hsent)]].
  - congruence.
  - left. exists m. congruence.
  - rewrite Hs in Hsent. injection Hsent as <-.
    destruct (reaches_passed codec kp config ledger request now w bh view Hr Hk) as [_ He].
    destruct (cosign_answers _ _ _ _ _ _ _ Ho)
      as (sim & raw & s & Hp & Hw & Hsim & Hrep & Hsig & E & Hd).
    destruct (dispatch_shape _ _ _ _ _ _ Hd) as [Eok | ->]; [right|left; eauto].
    destruct (dispatch_released _ _ _ _ _ _ Hd ltac:(now rewrite Eok)) as [Hrel _].
    exists bh, view, s, sim, raw. rewrite He, E. auto 12.
Qed.

Lemma answers_are_well_formed_witness :
  (exists message, ok_response "BRGsx" = error_response message)
  \/ (exists bh view signature sim raw,
        reaches_signature_checks (codec_legacy [slot None (publicKey custodial)]) custodial
          ledger_ok (request_of wire) 0 empty_world = Some (bh, view)
        /\ check_signatures custodial (config_submit 2) view = Ok tt
        /\ policy_passed ledger_ok view
        /\ signed_wire (codec_legacy [slot None (publicKey custodial)]) custodial view
           = Ok (sim, raw)
        /\ simulates (codec_legacy [slot None (publicKey custodial)]) sim raw
        /\ simulation_report ledger_ok sim = Some (Ok None)
        /\ released (config_submit 2) ledger_ok (request_of wire) raw
        /\ emitted (codec_legacy [slot None (publicKey custodial)]) custodial
             (config_submit 2) ledger_ok (request_of wire) 0 empty_world
           = EvIsBlockhashValid bh :: policy_events view ++ [sign_event view; sim]
             ++ events (dispatch (config_submit 2) ledger_ok (request_of wire) raw signature)
        /\ cosigned_signature (codec_legacy [slot None (publicKey custodial)]) custodial view
           = Ok signature
        /\ ok_response "BRGsx" = ok_response signature).
Proof.
  apply (answers_are_well_formed (codec_legacy [slot None (publicKey custodial)]) custodial
           (config_submit 2) ledger_ok (request_of wire) 0 empty_world).
  vm_compute. reflexivity.
Defined.

(** X4. When no [returnSignature] is configured, a 200 answer means that
    the transaction was signed, dry-run without error and submitted, in
    this order and as the last three calls, and that the submission of the
    simulated bytes was confirmed. *)
Theorem success_means_confirmed codec kp config ledger request now w response :
  returnSignature config = None ->
  sent codec kp config ledger request now w = Sent response ->
  statusCode response = 200 ->
  exists earlier sign sim raw,
    emitted codec kp config ledger request now w = earlier ++ [sign; sim; EvSubmit raw]
    /\ is_sign sign = true
    /\ simulates codec sim raw
    /\ simulation_report ledger sim = Some (Ok None)
    /\ sendAndConfirmRawTransaction ledger raw = Ok tt.
Proof.
  intros Hc Hs H200.
  destruct (sent_cases codec kp config ledger request now w)
    as [[e He] | [[m Hm] | (bh & view & r & Hr & Hk & Ho & Hsent)]].
  - congruence.
  - rewrite Hs in Hm. injection Hm as ->. discriminate.
  - destruct (reaches_passed codec kp config ledger request now w bh view Hr Hk) as [_ He].
    rewrite He.
    destruct (cosign_run codec kp config ledger request view)
      as [[[e Hthrow] _] | (sim & raw & s & Hsimu & Hrep & _ & E & Hout)]; [congruence|].
    rewrite E. rewrite Hout in Ho.
    destruct (dispatch_run config ledger request raw s)
      as [Ed | [Ed | (_ & Ed & [[_ Hsend] | (e & Hthrow & _)])]].
    + exfalso. revert Ed. unfold dispatch. rewrite Hc. pipe_unfold.
      destruct (sendAndConfirmRawTransaction ledger raw); discriminate.
    + exfalso. revert Ed. unfold dispatch. rewrite Hc. pipe_unfold.
      destruct (sendAndConfirmRawTransaction ledger raw); discriminate.
    + rewrite Ed.
      exists (EvIsBlockhashValid bh
              :: match view with LegacyView _ => [EvValidateInstructions] | V0View _ => [] end),
        (sign_event view), sim, raw.
      split; [destruct view; reflexivity|]. split; [now destruct view|]. auto.
    + congruence.
Qed.

Lemma success_means_confirmed_witness :
  exists earlier sign sim raw,
    emitted (codec_v0 1 [zero_sig]) custodial (config_submit 2) ledger_ok (request_of wire)
      0 empty_world = earlier ++ [sign; sim; EvSubmit raw]
    /\ is_sign sign = true
    /\ simulates (codec_v0 1 [zero_sig]) sim raw
    /\ simulation_report ledger_ok sim = Some (Ok None)
    /\ sendAndConfirmRawTransaction ledger_ok raw = Ok tt.
Proof.
  apply (success_means_confirmed (codec_v0 1 [zero_sig]) custodial (config_submit 2) ledger_ok
           (request_of wire) 0 empty_world (ok_response "BRGsx")).
  - reflexivity.
  - vm_compute. reflexivity.
  - reflexivity.
Defined.

(** X5. Once a [returnSignature] policy is configured, of either kind, no
    request is ever submitted to the ledger, whatever the anti-abuse check
    answers. *)
Theorem never_submits_when_returning codec kp config ledger request now w field :
  returnSignature config = Some field ->
  existsb is_submit (emitted codec kp config ledger request now w) = false.
Proof. intros Hc. apply emitted_no_submit. congruence. Qed.

Lemma never_submits_when_returning_witness :
  existsb is_submit
    (emitted (codec_v0 1 [zero_sig]) custodial
       {| maxSignatures := 2; returnSignature := Some (ReCaptcha 5) |}
       ledger_ok (request_of wire) 0 empty_world) = false.
Proof.
  apply (never_submits_when_returning (codec_v0 1 [zero_sig]) custodial
           {| maxSignatures := 2; returnSignature := Some (ReCaptcha 5) |}
           ledger_ok (request_of wire) 0 empty_world (ReCaptcha 5)).
  reflexivity.
Defined.

Lemma admitted_request_key codec request now w buffer vtx :
  admitted codec request now w = Some (buffer, vtx) ->
  request_key codec request = Some (lock_key codec vtx).
Proof.
  intros Ha. apply admitted_decodes in Ha as [Hd _]. unfold request_key. now rewrite Hd.
Qed.

(** X6. A request writes at most one cache entry, the lock of its own
    digest: the entry of any other key and the TTL of the cache are as it
    found them; and a request that is not admitted (no transaction, not
    decodable, or duplicate) leaves the whole world as it found it. *)
Theorem only_own_lock codec kp config ledger request now w key :
  request_key codec request <> Some key ->
  entries (cache (after codec kp config ledger request now w)) !! key
  = entries (cache w) !! key
  /\ ttl (cache (after codec kp config ledger request now w)) = ttl (cache w)
  /\ (admitted codec request now w = None ->
      after codec kp config ledger request now w = w).
Proof.
  intros Hk. split; [|split].
  - destruct (admitted codec request now w) as [[buffer vtx]|] eqn:Ha.
    + rewrite (lock_taken _ _ _ _ _ _ _ _ _ Ha). unfold cache_set. simpl.
      apply lookup_insert_ne. intros E. apply Hk.
      rewrite (admitted_request_key _ _ _ _ _ _ Ha). now rewrite E.
    + now rewrite (sponsor_not_admitted _ _ _ _ _ _ _ Ha).
  - destruct (admitted codec request now w) as [[buffer vtx]|] eqn:Ha.
    + now rewrite (lock_taken _ _ _ _ _ _ _ _ _ Ha).
    + now rewrite (sponsor_not_admitted _ _ _ _ _ _ _ Ha).
  - apply sponsor_not_admitted.
Qed.

Lemma only_own_lock_witness :
  entries (cache (after (codec_v0 1 [zero_sig]) custodial (config_submit 2) ledger_ok
                        (request_of wire) 0 empty_world)) !! "transaction/other"
  = entries (cache empty_world) !! "transaction/other"
  /\ ttl (cache (after (codec_v0 1 [zero_sig]) custodial (config_submit 2) ledger_ok
                       (request_of wire) 0 empty_world))
     = ttl (cache empty_world)
  /\ (admitted (codec_v0 1 [zero_sig]) (request_of wire) 0 empty_world = None ->
      after (codec_v0 1 [zero_sig]) custodial (config_submit 2) ledger_ok
            (request_of wire) 0 empty_world = empty_world).
Proof.
  apply (only_own_lock (codec_v0 1 [zero_sig]) custodial (config_submit 2) ledger_ok
           (request_of wire) 0 empty_world "transaction/other").
  vm_compute. discriminate.
Defined.

(** X7. Locks do not interfere across digests: serving a request changes
    neither the answer nor the external calls of a later request whose
    transaction has another digest. *)
Theorem other_digest_unaffected codec kp config ledger1 ledger2 request1 request2 t1 t2 w
  buffer2 vtx2 :
  decode_request codec request2 = Some (buffer2, vtx2) ->
  request_key codec request1 <> Some (lock_key codec vtx2) ->
  sent codec kp config ledger2 request2 t2 (after codec kp config ledger1 request1 t1 w)
  = sent codec kp config ledger2 request2 t2 w
  /\ emitted codec kp config ledger2 request2 t2 (after codec kp config ledger1 request1 t1 w)
     = emitted codec kp config ledger2 request2 t2 w.
Proof.
  intros Hd Hk.
  apply (sponsor_lock_only codec kp config ledger2 request2 t2 _ _ buffer2 vtx2 Hd).
  unfold cache_get.
  destruct (admitted codec request1 t1 w) as [[buffer1 vtx1]|] eqn:Ha.
  - rewrite (lock_taken _ _ _ _ _ _ _ _ _ Ha). unfold cache_set. simpl.
    rewrite lookup_insert_ne; [reflexivity|]. intros E. apply Hk.
    rewrite (admitted_request_key _ _ _ _ _ _ Ha). now rewrite E.
  - now rewrite (sponsor_not_admitted _ _ _ _ _ _ _ Ha).
Qed.

Lemma other_digest_unaffected_witness :
  sent (codec_two (v0_tx (publicKey custodial) 1 [zero_sig])
                  (v0_tx (publicKey custodial) 2 [zero_sig; user_signature]))
       custodial (config_submit 2) ledger_ok (request_of "2g") 1
       (after (codec_two (v0_tx (publicKey custodial) 1 [zero_sig])
                         (v0_tx (publicKey custodial) 2 [zero_sig; user_signature]))
              custodial (config_submit 2) ledger_ok (request_of wire) 0 empty_world)
  = sent (codec_two (v0_tx (publicKey custodial) 1 [zero_sig])
                    (v0_tx (publicKey custodial) 2 [zero_sig; user_signature]))
         custodial (config_submit 2) ledger_ok (request_of "2g") 1 empty_world
  /\ emitted (codec_two (v0_tx (publicKey custodial) 1 [zero_sig])
                        (v0_tx (publicKey custodial) 2 [zero_sig; user_signature]))
       custodial (config_submit 2) ledger_ok (request_of "2g") 1
       (after (codec_two (v0_tx (publicKey custodial) 1 [zero_sig])
                         (v0_tx (publicKey custodial) 2 [zero_sig; user_signature]))
              custodial (config_submit 2) ledger_ok (request_of wire) 0 empty_world)
     = emitted (codec_two (v0_tx (publicKey custodial) 1 [zero_sig])
                          (v0_tx (publicKey custodial) 2 [zero_sig; user_signature]))
         custodial (config_submit 2) ledger_ok (request_of "2g") 1 empty_world.
Proof.
  apply (other_digest_unaffected
           (codec_two (v0_tx (publicKey custodial) 1 [zero_sig])
                      (v0_tx (publicKey custodial) 2 [zero_sig; user_signature]))
           custodial (config_submit 2) ledger_ok ledger_ok (request_of wire) (request_of "2g")
           0 1 empty_world [97] (v0_tx (publicKey custodial) 2 [zero_sig; user_signature])).
  - vm_compute. reflexivity.
  - vm_compute. discriminate.
Defined.

(** X8. A rejected duplicate does not extend the window: it leaves the
    cache as the request that took the lock left it, so that the same
    message is admitted again as soon as the TTL of that first request is
    over, however late in the window the duplicate came. *)
Theorem duplicate_keeps_window codec kp config ledger1 ledger2 request1 request2 request3
  t1 t2 t3 w buffer1 vtx1 buffer2 vtx2 buffer3 vtx3 :
  admitted codec request1 t1 w = Some (buffer1, vtx1) ->
  decode_request codec request2 = Some (buffer2, vtx2) ->
  decode_request codec request3 = Some (buffer3, vtx3) ->
  message_serialize codec (VersionedTransaction.message vtx2)
  = message_serialize codec (VersionedTransaction.message vtx1) ->
  message_serialize codec (VersionedTransaction.message vtx3)
  = message_serialize codec (VersionedTransaction.message vtx1) ->
  t2 < t1 + ttl (cache w) ->
  t1 + ttl (cache w) <= t3 ->
  after codec kp config ledger2 request2 t2 (after codec kp config ledger1 request1 t1 w)
  = after codec kp config ledger1 request1 t1 w
  /\ admitted codec request3 t3
       (after codec kp config ledger2 request2 t2 (after codec kp config ledger1 request1 t1 w))
     = Some (buffer3, vtx3).
Proof.
  intros Ha Hd2 Hd3 Hm2 Hm3 Ht2 Ht3.
  pose proof (lock_taken codec kp config ledger1 request1 t1 w buffer1 vtx1 Ha) as Hl.
  assert (E : after codec kp config ledger2 request2 t2
                (after codec kp config ledger1 request1 t1 w)
              = after codec kp config ledger1 request1 t1 w).
  { apply sponsor_not_admitted.
    apply (duplicate_rejected codec kp config ledger2 request2 t2 _ buffer2 vtx2 Hd2).
    rewrite Hl, (lock_key_message codec vtx1 vtx2 Hm2), cache_get_set.
    now apply Z.ltb_lt. }
  split; [exact E|]. rewrite E. unfold admitted. rewrite Hd3.
  rewrite Hl, (lock_key_message codec vtx1 vtx3 Hm3), cache_get_set.
  now rewrite (proj2 (Z.ltb_ge _ _) Ht3).
Qed.

Lemma duplicate_keeps_window_witness :
  after (codec_v0 1 [zero_sig]) custodial (config_submit 2) ledger_ok (request_of wire) 4
    (after (codec_v0 1 [zero_sig]) custodial (config_submit 2) ledger_ok (request_of wire)
       0 empty_world)
  = after (codec_v0 1 [zero_sig]) custodial (config_submit 2) ledger_ok (request_of wire)
      0 empty_world
  /\ admitted (codec_v0 1 [zero_sig]) (request_of wire) 5
       (after (codec_v0 1 [zero_sig]) custodial (config_submit 2) ledger_ok (request_of wire) 4
          (after (codec_v0 1 [zero_sig]) custodial (config_submit 2) ledger_ok
             (request_of wire) 0 empty_world))
     = Some (wire_bytes, v0_tx (publicKey custodial) 1 [zero_sig]).
Proof.
  apply (duplicate_keeps_window (codec_v0 1 [zero_sig]) custodial (config_submit 2)
           ledger_ok ledger_ok (request_of wire) (request_of wire) (request_of wire)
           0 4 5 empty_world wire_bytes (v0_tx (publicKey custodial) 1 [zero_sig])
           wire_bytes (v0_tx (publicKey custodial) 1 [zero_sig])
           wire_bytes (v0_tx (publicKey custodial) 1 [zero_sig]));
    try (vm_compute; reflexivity);
    unfold empty_world, default_ttl; simpl; lia.
Defined.

Lemma locked_blockhash codec kp config ledger request buffer vtx :
  match presented_blockhash codec kp buffer vtx with
  | Some None =>
      sponsor_locked codec kp config ledger request buffer vtx
      = ([], Throw (JsError "missing recent blockhash"))
  | Some (Some bh) =>
      match isBlockhashValid ledger bh with
      | Ok true => True
      | Ok false =>
          sponsor_locked codec kp config ledger request buffer vtx
          = ([EvIsBlockhashValid bh], Throw (JsError "blockhash not found or expired"))
      | Throw e =>
          sponsor_locked codec kp config ledger request buffer vtx
          = ([EvIsBlockhashValid bh], Throw e)
      end
  | None => True
  end.
Proof.
  unfold presented_blockhash, sponsor_locked.
  destruct (VersionedTransaction.version vtx).
  - unfold sponsor_legacy. pipe_unfold.
    destruct (transaction_from codec buffer) as [ltx|]; [|exact I]. simpl.
    destruct (from_option _ _ _); [|exact I]. simpl.
    destruct (truthy_blockhash _) as [bh|]; [|reflexivity].
    destruct (isBlockhashValid ledger bh) as [[|]|]; simpl; auto.
  - unfold sponsor_v0.
    destruct (_ !! 0%nat) as [k|]; [|exact I].
    destruct (equals k (publicKey kp)); [|exact I]. simpl.
    destruct (bool_decide _); [reflexivity|]. pipe_unfold.
    destruct (isBlockhashValid ledger _) as [[|]|]; simpl; auto.
Qed.

(** X9. The blockhash stage, for an admitted request whose fee payer is
    the custodial key: a missing or empty blockhash is answered 400
    "missing recent blockhash" without any external call; a blockhash that
    the RPC node reports invalid is answered 400
    "blockhash not found or expired", and a failing query 400 with the
    message of its error, after that one query and nothing else. *)
Theorem blockhash_stage codec kp config ledger request now w buffer vtx :
  admitted codec request now w = Some (buffer, vtx) ->
  (presented_blockhash codec kp buffer vtx = Some None ->
     sent codec kp config ledger request now w
       = Sent (error_response "missing recent blockhash")
     /\ emitted codec kp config ledger request now w = [])
  /\ (forall bh,
        presented_blockhash codec kp buffer vtx = Some (Some bh) ->
        isBlockhashValid ledger bh = Ok false ->
        sent codec kp config ledger request now w
          = Sent (error_response "blockhash not found or expired")
        /\ emitted codec kp config ledger request now w = [EvIsBlockhashValid bh])
  /\ (forall bh message,
        presented_blockhash codec kp buffer vtx = Some (Some bh) ->
        isBlockhashValid ledger bh = Throw (JsError message) ->
        sent codec kp config ledger request now w = Sent (error_response message)
        /\ emitted codec kp config ledger request now w = [EvIsBlockhashValid bh]).
Proof.
  intros Ha.
  rewrite (sent_admitted _ _ _ _ _ _ _ _ _ Ha), (emitted_admitted _ _ _ _ _ _ _ _ _ Ha).
  pose proof (locked_blockhash codec kp config ledger request buffer vtx) as H.
  split; [|split].
  - intros E. rewrite E in H. now rewrite H.
  - intros bh E Hv. rewrite E, Hv in H. now rewrite H.
  - intros bh m E Hv. rewrite E, Hv in H. now rewrite H.
Qed.

Lemma blockhash_stage_witness :
  (sent (codec_of (legacy_vtx (publicKey custodial) 1 [zero_sig]) legacy_no_blockhash)
        custodial (config_submit 2) ledger_ok (request_of wire) 0 empty_world
     = Sent (error_response "missing recent blockhash")
   /\ emitted (codec_of (legacy_vtx (publicKey custodial) 1 [zero_sig]) legacy_no_blockhash)
        custodial (config_submit 2) ledger_ok (request_of wire) 0 empty_world = [])
  /\ (sent (codec_v0 1 [zero_sig]) custodial (config_submit 2) ledger_stale (request_of wire)
           0 empty_world
        = Sent (error_response "blockhash not found or expired")
      /\ emitted (codec_v0 1 [zero_sig]) custodial (config_submit 2) ledger_stale
           (request_of wire) 0 empty_world = [EvIsBlockhashValid blockhash])
  /\ (sent (codec_v0 1 [zero_sig]) custodial (config_submit 2) ledger_down (request_of wire)
           0 empty_world
        = Sent (error_response "fetch failed")
      /\ emitted (codec_v0 1 [zero_sig]) custodial (config_submit 2) ledger_down
           (request_of wire) 0 empty_world = [EvIsBlockhashValid blockhash]).
Proof.
  split; [|split].
  - refine (proj1 (blockhash_stage
                     (codec_of (legacy_vtx (publicKey custodial) 1 [zero_sig]) legacy_no_blockhash)
                     custodial (config_submit 2) ledger_ok (request_of wire) 0 empty_world
                     wire_bytes (legacy_vtx (publicKey custodial) 1 [zero_sig]) _) _);
      vm_compute; reflexivity.
  - refine (proj1 (proj2 (blockhash_stage (codec_v0 1 [zero_sig]) custodial (config_submit 2)
                            ledger_stale (request_of wire) 0 empty_world wire_bytes
                            (v0_tx (publicKey custodial) 1 [zero_sig]) _)) blockhash _ _);
      vm_compute; reflexivity.
  - refine (proj2 (proj2 (blockhash_stage (codec_v0 1 [zero_sig]) custodial (config_submit 2)
                            ledger_down (request_of wire) 0 empty_world wire_bytes
                            (v0_tx (publicKey custodial) 1 [zero_sig]) _)) blockhash
              "fetch failed" _ _);
      vm_compute; reflexivity.
Defined.

Lemma v0_require_signed_iff secondary :
  v0_require_signed secondary = Ok tt <-> existsb every_zero secondary = false.
Proof.
  induction secondary as [|sig rest IH]; simpl; [tauto|].
  destruct (every_zero sig); simpl; [split; discriminate | exact IH].
Qed.

Lemma legacy_require_signed_iff secondary :
  legacy_require_signed secondary = Ok tt <-> forallb legacy_signed secondary = true.
Proof.
  induction secondary as [|sig rest IH]; simpl; [tauto|]. unfold legacy_signed at 1.
  destruct (SignaturePubkeyPair.publicKey sig) as [k|].
  - destruct (SignaturePubkeyPair.signature sig) as [s|].
    + rewrite !bool_decide_eq_true_2 by eauto. exact IH.
    + rewrite (bool_decide_eq_false_2 (is_Some None)) by (intros [x Hx]; discriminate).
      rewrite andb_false_r. simpl. split; discriminate.
  - rewrite (bool_decide_eq_false_2 (is_Some None)) by (intros [x Hx]; discriminate).
    simpl. split; discriminate.
Qed.

(** X10. The signature checks of the versioned branch let through exactly
    the transactions that declare between 1 and [maxSignatures]
    signatures, carry that many slots and are either single-signer
    (whatever slot 0 holds) or have an all-zero slot 0 with secondary
    slots all unsigned or all signed.  In particular a multi-signer
    transaction that nobody signed passes. *)
Theorem v0_checks_characterised config vtx :
  v0_check_signatures config vtx = Ok tt <->
  1 <= VersionedMessage.numRequiredSignatures (VersionedTransaction.message vtx)
    <= maxSignatures config
  /\ Z.of_nat (length (VersionedTransaction.signatures vtx))
     = VersionedMessage.numRequiredSignatures (VersionedTransaction.message vtx)
  /\ (VersionedMessage.numRequiredSignatures (VersionedTransaction.message vtx) = 1
      \/ exists firstSig,
           VersionedTransaction.signatures vtx !! 0%nat = Some firstSig
           /\ every_zero firstSig = true
           /\ (forallb every_zero (drop 1 (VersionedTransaction.signatures vtx)) = true
               \/ existsb every_zero (drop 1 (VersionedTransaction.signatures vtx)) = false)).
Proof.
  split.
  - intros Hc. destruct (v0_checks_passed config vtx Hc) as [Hb Hl].
    split; [exact Hb|]. split; [exact Hl|].
    destruct (VersionedTransaction.signatures vtx !! 0%nat) as [firstSig|] eqn:Hf.
    + rewrite (v0_after_count config vtx firstSig (proj2 Hb) Hl Hf) in Hc.
      destruct (Z.eqb_spec (VersionedMessage.numRequiredSignatures
                              (VersionedTransaction.message vtx)) 1) as [E|_]; [now left|].
      right. exists firstSig. split; [reflexivity|].
      destruct (every_zero firstSig); [|discriminate]. split; [reflexivity|].
      simpl in Hc.
      destruct (forallb every_zero (drop 1 (VersionedTransaction.signatures vtx)));
        [now left|]. right. simpl in Hc. now apply v0_require_signed_iff.
    + exfalso. destruct (VersionedTransaction.signatures vtx); [simpl in Hl; lia|discriminate].
  - intros (Hb & Hl & Hcase).
    assert (Hf : exists firstSig, VersionedTransaction.signatures vtx !! 0%nat = Some firstSig).
    { destruct (VersionedTransaction.signatures vtx) as [|x l]; [simpl in Hl; lia|].
      exists x. reflexivity. }
    destruct Hf as [firstSig Hf].
    rewrite (v0_after_count config vtx firstSig (proj2 Hb) Hl Hf).
    destruct Hcase as [-> | (f & Hf' & Hz & Hsec)]; [reflexivity|].
    rewrite Hf in Hf'. injection Hf' as <-. rewrite Hz. simpl.
    destruct (_ =? 1); [reflexivity|].
    destruct Hsec as [-> | Hn]; [reflexivity|].
    destruct (forallb every_zero _); [reflexivity|]. simpl.
    now apply v0_require_signed_iff.
Qed.

(** X11. The signature checks of the legacy branch let through exactly
    the transactions with at least one and at most [maxSignatures] slots,
    whose primary slot is keyed to the custodial key and null, and whose
    secondary slots are all unsigned (null or all zero) or all carry a key
    and a signature. *)
Theorem legacy_checks_characterised kp config legacyTx :
  legacy_check_signatures kp config legacyTx = Ok tt <->
  exists primary secondary,
    Transaction.signatures legacyTx = primary :: secondary
    /\ Z.of_nat (length (Transaction.signatures legacyTx)) <= maxSignatures config
    /\ SignaturePubkeyPair.publicKey primary = Some (publicKey kp)
    /\ SignaturePubkeyPair.signature primary = None
    /\ (forallb legacy_unsigned secondary = true \/ forallb legacy_signed secondary = true).
Proof.
  split.
  - intros Hc. destruct (legacy_checks_passed kp config legacyTx Hc)
      as (primary & secondary & E & Hle & Hk & Hs).
    exists primary, secondary. repeat (split; [assumption|]).
    unfold legacy_check_signatures in Hc. rewrite E in Hc, Hle.
    destruct (Z.gtb_spec (Z.of_nat (length (primary :: secondary))) (maxSignatures config));
      [lia|].
    rewrite Hk, Hs in Hc. unfold equals in Hc.
    rewrite bool_decide_eq_true_2 in Hc by reflexivity. simpl in Hc.
    destruct (forallb legacy_unsigned secondary); [now left|]. right. simpl in Hc.
    now apply legacy_require_signed_iff.
  - intros (primary & secondary & E & Hle & Hk & Hs & Hsec).
    unfold legacy_check_signatures. rewrite E in *.
    destruct (Z.gtb_spec (Z.of_nat (length (primary :: secondary))) (maxSignatures config));
      [lia|].
    rewrite Hk, Hs. unfold equals. rewrite bool_decide_eq_true_2 by reflexivity. simpl.
    destruct Hsec as [-> | Hn]; [reflexivity|].
    destruct (forallb legacy_unsigned secondary); [reflexivity|]. simpl.
    now apply legacy_require_signed_iff.
Qed.

(** X12. In the legacy branch a transaction whose instructions the policy
    refuses is answered 400 with the message of the policy, after the
    blockhash query and the instruction check and before any signing. *)
Theorem refused_instructions_not_signed codec kp config ledger request now w bh legacyTx
  message :
  reaches_signature_checks codec kp ledger request now w = Some (bh, LegacyView legacyTx) ->
  check_signatures kp config (LegacyView legacyTx) = Ok tt ->
  validateInstructions ledger legacyTx = Throw (JsError message) ->
  sent codec kp config ledger request now w = Sent (error_response message)
  /\ emitted codec kp config ledger request now w
     = [EvIsBlockhashValid bh; EvValidateInstructions].
Proof.
  intros Hr Hc Hv.
  destruct (reaches_passed codec kp config ledger request now w bh _ Hr Hc) as [-> ->].
  simpl. unfold legacy_cosign. pipe_unfold. now rewrite Hv.
Qed.

Lemma refused_instructions_not_signed_witness :
  sent (codec_legacy [slot None (publicKey custodial); slot (Some user_signature) user])
       custodial (config_submit 2) ledger_strict (request_of wire) 0 empty_world
  = Sent (error_response "program not allowed")
  /\ emitted (codec_legacy [slot None (publicKey custodial); slot (Some user_signature) user])
       custodial (config_submit 2) ledger_strict (request_of wire) 0 empty_world
     = [EvIsBlockhashValid blockhash; EvValidateInstructions].
Proof.
  apply (refused_instructions_not_signed
           (codec_legacy [slot None (publicKey custodial); slot (Some user_signature) user])
           custodial (config_submit 2) ledger_strict (request_of wire) 0 empty_world blockhash
           (legacy_tx (publicKey custodial)
              [slot None (publicKey custodial); slot (Some user_signature) user])
           "program not allowed");
    vm_compute; reflexivity.
Defined.

(** X13. The versioned branch never consults the instruction policy: a
    request whose transaction is versioned makes no instruction check,
    whatever it is answered; when it passes the signature checks, the
    call that follows the blockhash query is the signing. *)
Theorem v0_skips_instruction_policy codec kp config ledger request now w buffer vtx :
  admitted codec request now w = Some (buffer, vtx) ->
  VersionedTransaction.version vtx = V0 ->
  ~ In EvValidateInstructions (emitted codec kp config ledger request now w)
  /\ (forall bh view,
        reaches_signature_checks codec kp ledger request now w = Some (bh, view) ->
        check_signatures kp config view = Ok tt ->
        exists rest,
          emitted codec kp config ledger request now w
          = EvIsBlockhashValid bh :: EvSignV0 vtx :: rest).
Proof.
  intros Ha Hv.
  assert (Hview : forall bh view,
             reaches_signature_checks codec kp ledger request now w = Some (bh, view) ->
             view = V0View vtx).
  { intros bh view Hr. unfold reaches_signature_checks in Hr. rewrite Ha, Hv in Hr.
    now apply v0_fresh_view in Hr. }
  assert (Hcos : exists rest, events (cosign codec kp config ledger request (V0View vtx))
                              = EvSignV0 vtx :: rest
                              /\ ~ In EvValidateInstructions rest).
  { destruct (cosign_run codec kp config ledger request (V0View vtx))
      as [[_ [E | [E | (sim & Hsim & E)]]] | (sim & raw & s & Hs & _ & _ & E & _)];
      rewrite E; simpl.
    - simpl in E. unfold v0_cosign in E. pipe_unfold.
      destruct (versioned_sign codec kp vtx); simpl in E; [|discriminate].
      destruct (versioned_serialize codec a); simpl in E; [|discriminate].
      destruct (simulateTransaction ledger a) as [[d|]|]; simpl in E; try discriminate.
      destruct (v0_signature codec a); simpl in E; [|discriminate].
      destruct (dispatch config ledger request a0 a1). discriminate.
    - exists []. split; [reflexivity|]. intros [].
    - exists [sim]. split; [reflexivity|]. intros [E'|[]]. subst sim. discriminate.
    - eexists. split; [reflexivity|]. intros [E'|Hin].
      + subst sim. apply simulates_simulate in Hs. discriminate.
      + destruct (dispatch_run config ledger request raw s) as [Ed | [Ed | (_ & Ed & _)]];
          rewrite Ed in Hin; simpl in Hin; intuition discriminate. }
  split.
  - destruct (reaches_signature_checks codec kp ledger request now w) as [[bh view]|] eqn:Hr.
    + pose proof (Hview bh view eq_refl) as ->.
      pose proof (reaches_run codec kp config ledger request now w bh _ Hr) as H.
      destruct (check_signatures kp config (V0View vtx)); destruct H as [_ ->].
      * destruct Hcos as (rest & -> & Hn). intros [E|[E|Hin]]; try discriminate. auto.
      * intros [E|[]]. discriminate.
    + destruct (stopped_before_checks codec kp config ledger request now w Hr) as [-> | [bh ->]].
      * intros [].
      * intros [E|[]]. discriminate.
  - intros bh view Hr Hc. pose proof (Hview bh view Hr) as ->.
    destruct (reaches_passed codec kp config ledger request now w bh _ Hr Hc) as [_ ->].
    destruct Hcos as (rest & -> & _). eauto.
Qed.

Lemma v0_skips_instruction_policy_witness :
  ~ In EvValidateInstructions
      (emitted (codec_v0 1 [zero_sig]) custodial (config_submit 2) ledger_strict
               (request_of wire) 0 empty_world)
  /\ exists rest,
       emitted (codec_v0 1 [zero_sig]) custodial (config_submit 2) ledger_strict
               (request_of wire) 0 empty_world
       = EvIsBlockhashValid blockhash
         :: EvSignV0 (v0_tx (publicKey custodial) 1 [zero_sig]) :: rest.
Proof.
  destruct (v0_skips_instruction_policy (codec_v0 1 [zero_sig]) custodial (config_submit 2)
              ledger_strict (request_of wire) 0 empty_world wire_bytes
              (v0_tx (publicKey custodial) 1 [zero_sig]))
    as [H1 H2]; try (vm_compute; reflexivity).
  split; [exact H1|].
  apply (H2 blockhash (V0View (v0_tx (publicKey custodial) 1 [zero_sig])));
    vm_compute; reflexivity.
Defined.

(** ** The health probe *)

(** X14. The answer of the health probe is coherent: code 200, status
    [healthy], [rpc.connected] and a block height go together, exactly
    when the RPC node answered, with the height it gave; code 503, status
    [unhealthy], [rpc.connected = false] and an error message go together
    otherwise, the message being that of the error or "Unknown error";
    the fee payer and the timestamp are reported either way. *)
Theorem health_answer_coherent toBase58 ENV_FEE_PAYER timestamp getBlockHeight :
  let answer := Health.handler toBase58 ENV_FEE_PAYER timestamp getBlockHeight in
  let rpc := Health.rpc (Health.json answer) in
  ((exists blockHeight,
      getBlockHeight = Ok blockHeight
      /\ Health.code answer = 200
      /\ Health.status (Health.json answer) = Health.healthy
      /\ Health.connected rpc = true
      /\ Health.blockheight rpc = Some blockHeight
      /\ Health.error rpc = None)
   \/ (exists e,
         getBlockHeight = Throw e
         /\ Health.code answer = 503
         /\ Health.status (Health.json answer) = Health.unhealthy
         /\ Health.connected rpc = false
         /\ Health.blockheight rpc = None
         /\ Health.error rpc
            = Some (match e with JsError message => message | JsOther => "Unknown error" end)))
  /\ Health.feePayer (Health.json answer) = toBase58 ENV_FEE_PAYER
  /\ Health.timestamp (Health.json answer) = timestamp
  /\ (Health.code answer = 200 <-> Health.connected rpc = true)
  /\ (Health.connected rpc = true <-> is_Some (Health.blockheight rpc))
  /\ (Health.connected rpc = false <-> is_Some (Health.error rpc)).
Proof.
  destruct getBlockHeight as [h|e]; simpl.
  - split; [left; exists h; auto 10|]. repeat split; eauto; try discriminate.
    intros [x Hx]. discriminate.
  - split; [right; exists e; auto 10|]. repeat split; eauto; try discriminate.
    intros [x Hx]. discriminate.
Qed.

(** ** A submission that fails *)

Lemma last_is_submit (evs earlier : list Event) raw :
  evs = earlier ++ [EvSubmit raw] -> last evs = Some (EvSubmit raw).
Proof. intros ->. apply last_snoc. Qed.

(** X15. When the submission fails, the request is answered 400 with the
    message of the failure: the transaction was signed and simulated, but
    its signature is not returned. *)
Theorem failed_submission_rejected codec kp config ledger request now w earlier raw message :
  emitted codec kp config ledger request now w = earlier ++ [EvSubmit raw] ->
  sendAndConfirmRawTransaction ledger raw = Throw (JsError message) ->
  sent codec kp config ledger request now w = Sent (error_response message)
  /\ existsb is_sign earlier = true
  /\ existsb is_simulate earlier = true.
Proof.
  intros He Hsend. pose proof (last_is_submit _ _ _ He) as Hlast.
  destruct (reaches_signature_checks codec kp ledger request now w) as [[bh view]|] eqn:Hr.
  - pose proof (reaches_run codec kp config ledger request now w bh view Hr) as H.
    destruct (check_signatures kp config view); destruct H as [Hs E];
      rewrite E in He, Hlast; [|discriminate].
    rewrite Hs.
    destruct (cosign_run codec kp config ledger request view)
      as [[_ [Ec | [Ec | (sim & Hsim & Ec)]]] | (sim & raw' & s & Hsimu & _ & _ & Ec & Hout)];
      rewrite Ec in He, Hlast.
    + exfalso. destruct view; discriminate.
    + exfalso. destruct view; discriminate.
    + exfalso. destruct view; simpl in Hlast; injection Hlast as E'; subst sim; discriminate.
    + apply simulates_simulate in Hsimu.
      destruct (dispatch_run config ledger request raw' s)
        as [Ed | [Ed | (_ & Ed & [[_ Hok] | (e & Hthrow & Hs')])]];
        rewrite Ed in He, Hlast.
      * exfalso. destruct view; simpl in Hlast; injection Hlast as E'; subst sim; discriminate.
      * exfalso. destruct view; discriminate.
      * exfalso. assert (raw' = raw) by (destruct view; simpl in Hlast; congruence).
        subst. congruence.
      * assert (raw' = raw) by (destruct view; simpl in Hlast; congruence). subst raw'.
        rewrite Hout, Hthrow. rewrite Hsend in Hs'. injection Hs' as <-.
        split; [reflexivity|].
        assert (earlier = EvIsBlockhashValid bh
                          :: match view with
                             | LegacyView _ => [EvValidateInstructions]
                             | V0View _ => []
                             end ++ [sign_event view; sim]) as ->.
        { symmetry. apply (app_inj_tail _ earlier (EvSubmit raw) (EvSubmit raw)).
          rewrite <- He. destruct view; reflexivity. }
        destruct view; simpl; rewrite Hsimu, ?orb_true_r; auto.
  - exfalso.
    destruct (stopped_before_checks codec kp config ledger request now w Hr) as [E | [bh E]];
      rewrite E in Hlast; discriminate.
Qed.

Lemma failed_submission_rejected_witness :
  sent (codec_v0 1 [zero_sig]) custodial (config_submit 2) ledger_unconfirmed
       (request_of wire) 0 empty_world
  = Sent (error_response "Transaction was not confirmed")
  /\ existsb is_sign
       [EvIsBlockhashValid blockhash;
        EvSignV0 (v0_tx (publicKey custodial) 1 [zero_sig]);
        EvSimulateV0 (v0_tx (publicKey custodial) 1 [service_signature])] = true
  /\ existsb is_simulate
       [EvIsBlockhashValid blockhash;
        EvSignV0 (v0_tx (publicKey custodial) 1 [zero_sig]);
        EvSimulateV0 (v0_tx (publicKey custodial) 1 [service_signature])] = true.
Proof.
  apply (failed_submission_rejected (codec_v0 1 [zero_sig]) custodial (config_submit 2)
           ledger_unconfirmed (request_of wire) 0 empty_world
           [EvIsBlockhashValid blockhash;
            EvSignV0 (v0_tx (publicKey custodial) 1 [zero_sig]);
            EvSimulateV0 (v0_tx (publicKey custodial) 1 [service_signature])]
           [7; 7; 7; 7; 2; 0; 1] "Transaction was not confirmed").
  - vm_compute. reflexivity.
  - reflexivity.
Defined.
